(** * Device relay backend (backend/api/v1/devices.py): model and properties

    The module keeps the last known state of four household devices in a
    string-keyed store, holds one global WebSocket handle [unity_ws] for the
    Unity controller, and exposes one request handler per device action.

    Strings are modelled as Rocq strings read as ASCII text; [str.lower],
    [str.split] and [int(str)] are the ASCII fragments of the Python
    built-ins.  The store is a finite map from strings to strings.  Each
    handler is a computation in a state monad with exceptions and runs to
    completion before the next one starts; the coroutine of the WebSocket
    endpoint is split into the steps it takes between two awaits. *)

From Stdlib Require Import ZArith QArith Lia Ascii String List.
From stdpp Require Import base strings list gmap.

Local Open Scope Z_scope.
Local Open Scope string_scope.

(** ** Python built-ins used by the module *)

Module Py.

(** [c.lower()] on one ASCII character. *)
Definition lower_ascii (c : ascii) : ascii :=
  let n := N_of_ascii c in
  if ((65 <=? n) && (n <=? 90))%N then ascii_of_N (n + 32) else c.

(** [s.lower()] on ASCII text (code points below 128), which is what the
    strings of this model are. *)
Fixpoint lower (s : string) : string :=
  match s with
  | EmptyString => EmptyString
  | String c r => String (lower_ascii c) (lower r)
  end.

(** [s.split(sep)] for a one-character separator: always at least one
    part, one more part than there are separators. *)
Fixpoint split (sep : ascii) (s : string) : list string :=
  match s with
  | EmptyString => [EmptyString]
  | String c r =>
      if Ascii.eqb c sep then EmptyString :: split sep r
      else match split sep r with
           | p :: ps => String c p :: ps
           | [] => [String c EmptyString]
           end
  end.

(** Characters that [int(str)] skips at both ends of an ASCII string:
    tab, line feed, vertical tab, form feed, carriage return and space. *)
Definition is_space (c : ascii) : bool :=
  let n := N_of_ascii c in
  (((9 <=? n) && (n <=? 13)) || (n =? 32))%N.

Definition digit_of (c : ascii) : option Z :=
  let n := N_of_ascii c in
  if ((48 <=? n) && (n <=? 57))%N then Some (Z.of_N (n - 48)) else None.

Fixpoint lstrip (s : string) : string :=
  match s with
  | String c r => if is_space c then lstrip r else s
  | EmptyString => EmptyString
  end.

(** Trailing white space is dropped: a string of white space only
    becomes empty. *)
Fixpoint rstrip (s : string) : string :=
  match s with
  | EmptyString => EmptyString
  | String c r =>
      match rstrip r with
      | EmptyString => if is_space c then EmptyString else String c EmptyString
      | r' => String c r'
      end
  end.

(** Decimal digits with single underscores allowed between digits.
    [acc] is the value read so far; [after_digit] tells whether the
    previous character was a digit (an underscore is legal only then,
    and the literal must not end on one). *)
Fixpoint digits (acc : Z) (after_digit : bool) (s : string) : option Z :=
  match s with
  | EmptyString => if after_digit then Some acc else None
  | String c r =>
      match digit_of c with
      | Some d => digits (10 * acc + d) true r
      | None =>
          if Ascii.eqb c "_" && after_digit
          then match r with
               | EmptyString => None
               | String c' _ =>
                   match digit_of c' with
                   | Some _ => digits acc false r
                   | None => None
                   end
               end
          else None
      end
  end.

(** The number of decimal digits in a string. *)
Fixpoint digit_count (s : string) : N :=
  match s with
  | EmptyString => 0%N
  | String c r =>
      match digit_of c with
      | Some _ => N.succ (digit_count r)
      | None => digit_count r
      end
  end.

(** The default limit on the digits of a decimal literal that [int]
    converts ([sys.int_info.default_max_str_digits]). *)
Definition max_str_digits : N := 4300.

(** The digits after the sign: a literal with more digits than the limit
    is refused. *)
Definition literal (s : string) : option Z :=
  if (max_str_digits <? digit_count s)%N then None else digits 0 false s.

(** [int(s)] for a string argument, base 10: [None] stands for the
    [ValueError] the built-in raises. *)
Definition int_of_str (s : string) : option Z :=
  match rstrip (lstrip s) with
  | String "-" r => Z.opp <$> literal r
  | String "+" r => literal r
  | t => literal t
  end.

Definition digit_char (d : Z) : ascii := ascii_of_N (48 + Z.to_N d).

(** Decimal digits of a non-negative number, most significant first;
    [fuel] bounds the number of digits. *)
Fixpoint str_of_pos (fuel : nat) (n : Z) (acc : string) : string :=
  match fuel with
  | O => acc
  | S fuel' =>
      let acc' := String (digit_char (n mod 10)) acc in
      if (n <? 10)%Z then acc' else str_of_pos fuel' (n / 10) acc'
  end.

(** [str(n)] for an int; the handlers apply it to clamped volumes only,
    far below the digit limit of the conversion. *)
Definition str_of_int (n : Z) : string :=
  if (n <? 0)%Z
  then String "-" (str_of_pos (S (Z.to_nat (Z.log2 (- n)))) (- n) EmptyString)
  else str_of_pos (S (Z.to_nat (Z.log2 n))) n EmptyString.

(** A Python float: a finite value (every finite float is a rational),
    an infinity or a NaN. *)
Inductive float : Type :=
| Finite (q : Q)
| Inf (negative : bool)
| NaN.

Inductive exn : Type :=
| OverflowError
| ValueError
| ConnectionClosed.

(** [int(x)] for a float argument: truncation toward zero; the
    infinities raise [OverflowError], NaN raises [ValueError]. *)
Definition int_of_float (x : float) : exn + Z :=
  match x with
  | Finite q => inr (Z.quot (Qnum q) (Z.pos (Qden q)))
  | Inf _ => inl OverflowError
  | NaN => inl ValueError
  end.

End Py.

(** ** Module state and effects *)

(** A WebSocket object, named by a number. *)
Definition WebSocket : Type := nat.

(** JSON values of the response bodies; a response is the dict the handler
    returns, as its list of items. *)
Inductive JVal : Type :=
| JStr (s : string)
| JInt (n : Z)
| JBool (b : bool).

Definition Response : Type := list (string * JVal).

(** The state the handlers act on.
    - [USE_REDIS]: the backend flag, fixed when the module is imported;
    - [device_states]: the contents of the store (the module-level dict,
      or Redis database 0 when [USE_REDIS] holds);
    - [unity_ws]: the global connection variable;
    - [open_sockets]: the sockets on which [send_text] still succeeds;
    - [sent]: the text frames sent so far, oldest first. *)
Record World : Type := mkWorld {
  USE_REDIS : bool;
  device_states : gmap string string;
  unity_ws : option WebSocket;
  open_sockets : gset WebSocket;
  sent : list (WebSocket * string);
}.

(** Handlers run in a state monad with exceptions.  State changes made
    before an exception is raised persist, as in Python. *)
Definition M (A : Type) : Type := World -> (Py.exn + A) * World.

#[global] Instance M_ret : MRet M := fun A a w => (inr a, w).

#[global] Instance M_bind : MBind M := fun A B f m w =>
  match m w with
  | (inr a, w') => f a w'
  | (inl e, w') => (inl e, w')
  end.

Definition raise {A : Type} (e : Py.exn) : M A := fun w => (inl e, w).

Definition gets {A : Type} (f : World -> A) : M A := fun w => (inr (f w), w).

Definition modify (f : World -> World) : M unit := fun w => (inr tt, f w).

Definition set_store (m : gmap string string) (w : World) : World :=
  mkWorld (USE_REDIS w) m (unity_ws w) (open_sockets w) (sent w).

Definition set_unity_ws (c : option WebSocket) (w : World) : World :=
  mkWorld (USE_REDIS w) (device_states w) c (open_sockets w) (sent w).

Definition set_open (o : gset WebSocket) (w : World) : World :=
  mkWorld (USE_REDIS w) (device_states w) (unity_ws w) o (sent w).

Definition push_sent (ws : WebSocket) (text : string) (w : World) : World :=
  mkWorld (USE_REDIS w) (device_states w) (unity_ws w) (open_sockets w)
          (sent w ++ [(ws, text)]).

(** [x or "off"] where [x] is the result of [r.get(key)]: [None] and the
    empty string are both falsy. *)
Definition or_off (x : option string) : string :=
  match x with
  | None => "off"
  | Some EmptyString => "off"
  | Some v => v
  end.

Definition get_device_status (key : string) : M string :=
  use_redis ← gets USE_REDIS;
  store ← gets device_states;
  if (use_redis : bool) then mret (or_off (store !! key))
  else mret (default "off" (store !! key)).

Definition set_device_status (key : string) (state : string) : M unit :=
  modify (fun w => set_store (<[key := state]> (device_states w)) w).

(** [await ws.send_text(text)]: the frame goes out when the socket is open;
    on a closed socket the call raises. *)
Definition send_text (ws : WebSocket) (text : string) : M unit :=
  fun w =>
    if bool_decide (ws ∈ open_sockets w)
    then (inr tt, push_sent ws text w)
    else (inl Py.ConnectionClosed, w).

Record DeviceCommand : Type := { state : string }.

Record VolumeCommand : Type := { change : Py.float }.

(** ** WebSocket endpoint

    [websocket_endpoint] is a coroutine that runs for as long as its
    socket lives; it is modelled by the three pieces it consists of: the
    code before the loop, one turn of the loop on a received text, and
    the [except WebSocketDisconnect] branch. *)

Definition websocket_accept (websocket : WebSocket) : M unit :=
  modify (fun w => set_open ({[websocket]} ∪ open_sockets w) w);;
  modify (set_unity_ws (Some websocket)).

Definition websocket_receive (data : string) : M unit :=
  let parts := Py.split ":" data in
  if (length parts =? 3)%nat then
    let device := Py.lower (nth 0 parts "") in
    let prop := Py.lower (nth 1 parts "") in
    let value := Py.lower (nth 2 parts "") in
    let key := device ++ "_" ++ prop in
    set_device_status key value
  else mret tt.

Definition websocket_disconnect (websocket : WebSocket) : M unit :=
  modify (fun w => set_open (open_sockets w ∖ {[websocket]}) w);;
  modify (set_unity_ws None).

(** ** Device endpoints *)

Definition not_connected : Response :=
  [("error", JStr "Unity client not connected")].

Definition toggle_lamp (command : DeviceCommand) : M Response :=
  ws ← gets unity_ws;
  match ws with
  | None => mret not_connected
  | Some ws =>
      let desired_state := Py.lower (state command) in
      current_state ← get_device_status "lamp_status";
      if String.eqb current_state desired_state
      then mret [("message", JStr ("Lamp is already " ++ desired_state ++ "."))]
      else
        let message := "lamp:status:" ++ state command in
        send_text ws message;;
        set_device_status "lamp_status" desired_state;;
        mret [("message", JStr "Command sent"); ("command", JStr message)]
  end.

Definition get_lamp_status : M Response :=
  state ← get_device_status "lamp_status";
  mret [("lamp", JBool (String.eqb state "on"))].

Definition toggle_tv (command : DeviceCommand) : M Response :=
  ws ← gets unity_ws;
  match ws with
  | None => mret not_connected
  | Some ws =>
      let desired_state := Py.lower (state command) in
      current_state ← get_device_status "tv_status";
      if String.eqb current_state desired_state
      then mret [("message", JStr ("TV is already " ++ desired_state ++ "."))]
      else
        let message := "tv:status:" ++ state command in
        send_text ws message;;
        set_device_status "tv_status" desired_state;;
        mret [("message", JStr "Command sent"); ("command", JStr message)]
  end.

Definition get_tv_status : M Response :=
  state ← get_device_status "tv_status";
  mret [("tv", JBool (String.eqb state "on"))].

Definition toggle_radio (command : DeviceCommand) : M Response :=
  ws ← gets unity_ws;
  match ws with
  | None => mret not_connected
  | Some ws =>
      let desired_state := Py.lower (state command) in
      current_state ← get_device_status "radio_status";
      if String.eqb current_state desired_state
      then mret [("message", JStr ("Radio is already " ++ desired_state ++ "."))]
      else
        let message := "radio:status:" ++ state command in
        send_text ws message;;
        set_device_status "radio_status" desired_state;;
        mret [("message", JStr "Command sent"); ("command", JStr message)]
  end.

Definition get_radio_status : M Response :=
  state ← get_device_status "radio_status";
  mret [("radio", JBool (String.eqb state "on"))].

Definition toggle_kitchen_light (command : DeviceCommand) : M Response :=
  ws ← gets unity_ws;
  match ws with
  | None => mret not_connected
  | Some ws =>
      let desired_state := Py.lower (state command) in
      current_state ← get_device_status "kitchenlight_status";
      if String.eqb current_state desired_state
      then mret [("message",
                  JStr ("Kitchen lights are already " ++ desired_state ++ "."))]
      else
        let message := "kitchenlight:status:" ++ state command in
        send_text ws message;;
        set_device_status "kitchenlight_status" desired_state;;
        mret [("message", JStr "Command sent"); ("command", JStr message)]
  end.

Definition get_kitchen_light_status : M Response :=
  state ← get_device_status "kitchenlight_status";
  mret [("kitchenlight", JBool (String.eqb state "on"))].

(** [try: v = int(s) / except: v = fallback] *)
Definition int_or (fallback : Z) (s : string) : Z :=
  default fallback (Py.int_of_str s).

(** [max(0, min(100, n))] *)
Definition clamp (n : Z) : Z := Z.max 0 (Z.min 100 n).

(** [int(command.change)] inside a handler: the exception of a non-finite
    float is not caught there. *)
Definition int_of_change (x : Py.float) : M Z :=
  match Py.int_of_float x with
  | inr n => mret n
  | inl e => raise e
  end.

Section Volume.

(** The text an f-string produces for a float ([format(x, "")], which
    is [repr(x)]); the handlers only paste it into the message. *)
Variable format_float : Py.float -> string.

Definition change_tv_volume (command : VolumeCommand) : M Response :=
  ws ← gets unity_ws;
  match ws with
  | None => mret not_connected
  | Some ws =>
      let message := "tv:volume:" ++ format_float (change command) in
      send_text ws message;;
      stored ← get_device_status "tv_volume";
      let current_vol := int_or 50 stored in
      delta ← int_of_change (change command);
      let new_vol := clamp (current_vol + delta) in
      set_device_status "tv_volume" (Py.str_of_int new_vol);;
      mret [("message", JStr "TV volume command sent");
            ("command", JStr message); ("new_volume", JInt new_vol)]
  end.

Definition change_radio_volume (command : VolumeCommand) : M Response :=
  ws ← gets unity_ws;
  match ws with
  | None => mret not_connected
  | Some ws =>
      let message := "radio:volume:" ++ format_float (change command) in
      send_text ws message;;
      stored ← get_device_status "radio_volume";
      let current_vol := int_or 6 stored in
      delta ← int_of_change (change command);
      let new_vol := clamp (current_vol + delta) in
      set_device_status "radio_volume" (Py.str_of_int new_vol);;
      mret [("message", JStr "Radio volume command sent");
            ("command", JStr message); ("new_volume", JInt new_vol)]
  end.

End Volume.

Definition get_tv_volume : M Response :=
  vol ← get_device_status "tv_volume";
  mret [("tv_volume", JInt (int_or 50 vol))].

Definition get_radio_volume : M Response :=
  vol ← get_device_status "radio_volume";
  mret [("radio_volume", JInt (int_or 6 vol))].

(** The dict literal the in-memory backend starts from. *)
Definition initial_device_states : gmap string string :=
  <["lamp_status" := "on"]>
  (<["tv_status" := "off"]>
  (<["radio_status" := "off"]>
  (<["kitchenlight_status" := "on"]>
  (<["tv_volume" := "50"]>
  (<["radio_volume" := "6"]> ∅))))).

(** The state right after import with the in-memory backend. *)
Definition initial_world : World :=
  mkWorld false initial_device_states None ∅ [].

(** ** The operations by device

    The four toggle handlers and the two volume handlers are copies of one
    another up to the device name; [toggle], [adjustVolume], [queryStatus]
    and [queryVolume] select the handler of a device. *)

Inductive Device : Type := lamp | tv | radio | kitchenlight.

Inductive VolumeDevice : Type := vol_tv | vol_radio.

Definition device_name (d : Device) : string :=
  match d with
  | lamp => "lamp"
  | tv => "tv"
  | radio => "radio"
  | kitchenlight => "kitchenlight"
  end.

Definition status_key (d : Device) : string := device_name d ++ "_status".

(** The words before the state in the "already" message. *)
Definition already (d : Device) : string :=
  match d with
  | lamp => "Lamp is already "
  | tv => "TV is already "
  | radio => "Radio is already "
  | kitchenlight => "Kitchen lights are already "
  end.

Definition toggle (d : Device) : DeviceCommand -> M Response :=
  match d with
  | lamp => toggle_lamp
  | tv => toggle_tv
  | radio => toggle_radio
  | kitchenlight => toggle_kitchen_light
  end.

Definition queryStatus (d : Device) : M Response :=
  match d with
  | lamp => get_lamp_status
  | tv => get_tv_status
  | radio => get_radio_status
  | kitchenlight => get_kitchen_light_status
  end.

Definition volume_name (d : VolumeDevice) : string :=
  match d with vol_tv => "tv" | vol_radio => "radio" end.

Definition volume_key (d : VolumeDevice) : string := volume_name d ++ "_volume".

Definition default_volume (d : VolumeDevice) : Z :=
  match d with vol_tv => 50 | vol_radio => 6 end.

Definition volume_sent (d : VolumeDevice) : string :=
  match d with
  | vol_tv => "TV volume command sent"
  | vol_radio => "Radio volume command sent"
  end.

Definition adjustVolume (format_float : Py.float -> string) (d : VolumeDevice)
  : VolumeCommand -> M Response :=
  match d with
  | vol_tv => change_tv_volume format_float
  | vol_radio => change_radio_volume format_float
  end.

Definition queryVolume (d : VolumeDevice) : M Response :=
  match d with
  | vol_tv => get_tv_volume
  | vol_radio => get_radio_volume
  end.

(** What [get_device_status key] reads in [w]. *)
Definition stored (w : World) (key : string) : string :=
  if USE_REDIS w then or_off (device_states w !! key)
  else default "off" (device_states w !! key).

(** The response of a toggle that sent [message]. *)
Definition command_sent (message : string) : Response :=
  [("message", JStr "Command sent"); ("command", JStr message)].

(** The response of a toggle that found the device in the wanted state. *)
Definition already_in_state (d : Device) (desired_state : string) : Response :=
  [("message", JStr (already d ++ desired_state ++ "."))].

(** The status message a toggle sends. *)
Definition status_message (d : Device) (command : DeviceCommand) : string :=
  device_name d ++ ":status:" ++ state command.

(** ** Runs of the system

    The requests of the HTTP API, and the events that drive the module:
    a controller connecting, a text arriving on a socket whose receive
    loop is running, the loop observing a disconnect, the loop of a
    socket ending without its [except] branch (the receive raised
    something other than [WebSocketDisconnect]; the socket is closed and
    nothing is cleared), and a request.  Each handler runs to completion
    before the next event. *)

Inductive Request : Type :=
| PostLamp (c : DeviceCommand)
| GetLampStatus
| PostTv (c : DeviceCommand)
| GetTvStatus
| PostTvVolume (c : VolumeCommand)
| GetTvVolume
| PostRadio (c : DeviceCommand)
| GetRadioStatus
| PostRadioVolume (c : VolumeCommand)
| GetRadioVolume
| PostKitchenlight (c : DeviceCommand)
| GetKitchenlightStatus.

Inductive Event : Type :=
| Connect (ws : WebSocket)
| Text (ws : WebSocket) (data : string)
| Disconnect (ws : WebSocket)
| Abort (ws : WebSocket)
| Http (r : Request).

Section Runs.

Variable format_float : Py.float -> string.

Definition handle (r : Request) : M Response :=
  match r with
  | PostLamp c => toggle_lamp c
  | GetLampStatus => get_lamp_status
  | PostTv c => toggle_tv c
  | GetTvStatus => get_tv_status
  | PostTvVolume c => change_tv_volume format_float c
  | GetTvVolume => get_tv_volume
  | PostRadio c => toggle_radio c
  | GetRadioStatus => get_radio_status
  | PostRadioVolume c => change_radio_volume format_float c
  | GetRadioVolume => get_radio_volume
  | PostKitchenlight c => toggle_kitchen_light c
  | GetKitchenlightStatus => get_kitchen_light_status
  end.

Definition step (w : World) (e : Event) : World :=
  match e with
  | Connect ws =>
      if bool_decide (ws ∈ open_sockets w) then w
      else snd (websocket_accept ws w)
  | Text ws data =>
      if bool_decide (ws ∈ open_sockets w)
      then snd (websocket_receive data w) else w
  | Disconnect ws =>
      if bool_decide (ws ∈ open_sockets w)
      then snd (websocket_disconnect ws w) else w
  | Abort ws => set_open (open_sockets w ∖ {[ws]}) w
  | Http r => snd (handle r w)
  end.

Definition run (es : list Event) (w : World) : World := foldl step w es.

End Runs.

(** The status values of the data model. *)
Definition on_or_off (s : string) : bool := String.eqb s "on" || String.eqb s "off".

Definition status_keys : list string :=
  ["lamp_status"; "tv_status"; "radio_status"; "kitchenlight_status"].

(** A message has three non-empty parts. *)
Definition three_nonempty_parts (data : string) : bool :=
  let parts := Py.split ":" data in
  (length parts =? 3)%nat && forallb (fun p => negb (String.eqb p "")) parts.

(** A string has no upper-case letter. *)
Definition is_lower (s : string) : bool := String.eqb (Py.lower s) s.

(** An event that keeps to the protocol: a toggle asks for "on" or "off"
    in any casing, and a message that lands on a status key carries "on"
    or "off" in any casing. *)
Definition toggle_state_ok (c : DeviceCommand) : bool :=
  on_or_off (Py.lower (state c)).

Definition text_ok (data : string) : bool :=
  let parts := Py.split ":" data in
  if (length parts =? 3)%nat then
    let key := Py.lower (nth 0 parts "") ++ "_" ++ Py.lower (nth 1 parts "") in
    if bool_decide (key ∈ status_keys)
    then on_or_off (Py.lower (nth 2 parts ""))
    else true
  else true.

Definition event_ok (e : Event) : bool :=
  match e with
  | Text _ data => text_ok data
  | Http (PostLamp c) | Http (PostTv c) | Http (PostRadio c)
  | Http (PostKitchenlight c) => toggle_state_ok c
  | _ => true
  end.

(** A sample formatting of floats for the examples below: the few values
    they use, as [repr] prints them. *)
Definition sample_format (x : Py.float) : string :=
  match x with
  | Py.Finite q =>
      if Qeq_bool q 50 then "50.0"
      else if Qeq_bool q (-50) then "-50.0"
      else if Qeq_bool q (15 # 2) then "7.5"
      else "0.0"
  | Py.Inf false => "inf"
  | Py.Inf true => "-inf"
  | Py.NaN => "nan"
  end.

(** A state with controller [ws] connected and the in-memory store [m]. *)
Definition connected_world (ws : WebSocket) (m : gmap string string) : World :=
  mkWorld false m (Some ws) {[ws]} [].

(** The outcome of a toggle, written out: the three exits of the handler
    and the failing send. *)
Definition toggle_outcome (d : Device) (command : DeviceCommand) (w : World)
  : (Py.exn + Response) * World :=
  match unity_ws w with
  | None => (inr not_connected, w)
  | Some ws =>
      let desired_state := Py.lower (state command) in
      if String.eqb (stored w (status_key d)) desired_state
      then (inr (already_in_state d desired_state), w)
      else if bool_decide (ws ∈ open_sockets w)
      then (inr (command_sent (status_message d command)),
            set_store (<[status_key d := desired_state]> (device_states w))
                      (push_sent ws (status_message d command) w))
      else (inl Py.ConnectionClosed, w)
  end.

(** [int(x)] of a finite float, as a function on its value. *)
Definition truncate (q : Q) : Z := Z.quot (Qnum q) (Z.pos (Qden q)).

(** The volume the specification describes, written out without the
    handler's helpers: the stored text parsed as an integer, or the
    fallback when it does not parse, plus the truncated delta, brought
    into [0,100]. *)
Definition spec_clamp (n : Z) : Z :=
  if (n <? 0)%Z then 0 else if (100 <? n)%Z then 100 else n.

Definition spec_volume (fallback : Z) (text : string) (delta : Q) : Z :=
  let current :=
    match Py.int_of_str text with
    | Some v => v
    | None => fallback
    end in
  spec_clamp (current + truncate delta).

(** The volume message a handler sends. *)
Definition volume_message (format_float : Py.float -> string)
  (d : VolumeDevice) (command : VolumeCommand) : string :=
  volume_name d ++ ":volume:" ++ format_float (change command).

(** The response of a volume change. *)
Definition volume_changed (d : VolumeDevice) (message : string) (new_vol : Z)
  : Response :=
  [("message", JStr (volume_sent d)); ("command", JStr message);
   ("new_volume", JInt new_vol)].

(** The outcome of a volume change, written out. *)
Definition adjust_outcome (format_float : Py.float -> string)
  (d : VolumeDevice) (command : VolumeCommand) (w : World)
  : (Py.exn + Response) * World :=
  match unity_ws w with
  | None => (inr not_connected, w)
  | Some ws =>
      let message := volume_message format_float d command in
      if bool_decide (ws ∈ open_sockets w) then
        let w1 := push_sent ws message w in
        match Py.int_of_float (change command) with
        | inr delta =>
            let new_vol :=
              clamp (int_or (default_volume d) (stored w (volume_key d)) + delta) in
            (inr (volume_changed d message new_vol),
             set_store (<[volume_key d := Py.str_of_int new_vol]> (device_states w)) w1)
        | inl e => (inl e, w1)
        end
      else (inl Py.ConnectionClosed, w)
  end.

(** Every status key reads as "on" or "off". *)
Definition status_ok (w : World) : Prop :=
  forall k : string, k ∈ status_keys -> on_or_off (stored w k) = true.

(** Every value in the store is free of upper-case letters. *)
Definition all_lower (w : World) : Prop :=
  map_Forall (fun (_ : string) (v : string) => is_lower v = true) (device_states w).

(** ** Further definitions

    The backend flag as the module computes it when imported:
    [os.getenv("USE_REDIS", "false").lower() in ("true", "1", "yes")];
    [env] is the value of the environment variable, if set. *)
Definition use_redis_of_env (env : option string) : bool :=
  bool_decide (Py.lower (default "false" env) ∈ ["true"; "1"; "yes"]).

(** The number of occurrences of a character in a string. *)
Fixpoint count_char (c : ascii) (s : string) : nat :=
  match s with
  | EmptyString => O
  | String x r => if Ascii.eqb x c then S (count_char c r) else count_char c r
  end.

(** The requests that may send a frame. *)
Definition is_post (e : Event) : bool :=
  match e with
  | Http (PostLamp _) | Http (PostTv _) | Http (PostTvVolume _)
  | Http (PostRadio _) | Http (PostRadioVolume _) | Http (PostKitchenlight _) => true
  | _ => false
  end.



Definition volume_keys : list string := ["tv_volume"; "radio_volume"].

(** A text is the decimal form of a volume in range. *)
Definition volume_text (v : string) : bool :=
  match Py.int_of_str v with
  | Some n => ((0 <=? n) && (n <=? 100))%Z
  | None => false
  end.

(** Both volume keys read as a volume in range. *)
Definition volumes_ok (w : World) : Prop :=
  forall k : string, k ∈ volume_keys -> volume_text (stored w k) = true.

(** An inbound message that, when it lands on a volume key, carries a
    volume in range. *)
Definition volume_text_ok (data : string) : bool :=
  let parts := Py.split ":" data in
  if (length parts =? 3)%nat then
    let key := Py.lower (nth 0 parts "") ++ "_" ++ Py.lower (nth 1 parts "") in
    if bool_decide (key ∈ volume_keys)
    then volume_text (Py.lower (nth 2 parts ""))
    else true
  else true.

Definition volume_event_ok (e : Event) : bool :=
  match e with
  | Text _ data => volume_text_ok data
  | _ => true
  end.

(** ** The first version of the lamp endpoint (backend/api/v1/lamp.py)

    The module has its own global [unity_ws] and no store; it acts on the
    [unity_ws], [open_sockets] and [sent] components of the state. *)

Module Lamp.

Record LampCommand : Type := { state : string }.

Definition websocket_accept (websocket : WebSocket) : M unit :=
  modify (fun w => set_open ({[websocket]} ∪ open_sockets w) w);;
  modify (set_unity_ws (Some websocket)).

(** One turn of the receive loop: the text is printed and dropped. *)
Definition websocket_receive (data : string) : M unit := mret tt.

Definition websocket_disconnect (websocket : WebSocket) : M unit :=
  modify (fun w => set_open (open_sockets w ∖ {[websocket]}) w);;
  modify (set_unity_ws None).

Definition toggle_lamp (command : LampCommand) : M Response :=
  ws ← gets unity_ws;
  match ws with
  | None => mret not_connected
  | Some ws =>
      let message := "lamp:" ++ state command in
      send_text ws message;;
      mret [("message", JStr "Command sent"); ("command", JStr message)]
  end.

(** [n] calls of the handler in a row; the responses are dropped and an
    exception does not stop the following calls, each being a request of
    its own. *)
Fixpoint toggle_many (n : nat) (command : LampCommand) (w : World) : World :=
  match n with
  | O => w
  | S n' => toggle_many n' command (snd (toggle_lamp command w))
  end.

End Lamp.

(** Closes the parts of a frame goal on which nothing changed. *)
Ltac unchanged :=
  cbn [snd]; repeat split;
  try reflexivity; try eassumption; try (left; reflexivity).

(** * Properties *)

(** ** How the handlers run *)

Lemma get_device_status_run (key : string) (w : World) :
  get_device_status key w = (inr (stored w key), w).
Proof.
  unfold get_device_status, stored, gets, mbind, M_bind, mret, M_ret.
  destruct (USE_REDIS w); reflexivity.
Qed.

Lemma toggle_run (d : Device) (command : DeviceCommand) (w : World) :
  toggle d command w = toggle_outcome d command w.
Proof.
  unfold toggle_outcome.
  destruct d;
    unfold toggle, toggle_lamp, toggle_tv, toggle_radio, toggle_kitchen_light,
      mbind, M_bind, gets;
    repeat match goal with
      | |- context [status_key ?x] =>
          let v := eval compute in (status_key x) in
          change (status_key x) with v
      end;
    (destruct (unity_ws w) as [ws|]; [|reflexivity]);
    rewrite get_device_status_run;
    (match goal with |- context [String.eqb ?a ?b] => destruct (String.eqb a b) end;
     [reflexivity|]);
    unfold send_text; destruct (bool_decide (ws ∈ open_sockets w)); reflexivity.
Qed.

Lemma adjust_run (format_float : Py.float -> string) (d : VolumeDevice)
  (command : VolumeCommand) (w : World) :
  adjustVolume format_float d command w = adjust_outcome format_float d command w.
Proof.
  unfold adjust_outcome.
  destruct d;
    unfold adjustVolume, change_tv_volume, change_radio_volume, mbind, M_bind,
      gets, send_text;
    (destruct (unity_ws w) as [ws|]; [|reflexivity]);
    (destruct (bool_decide (ws ∈ open_sockets w)); [|reflexivity]);
    rewrite get_device_status_run;
    unfold int_of_change;
    destruct (Py.int_of_float (change command)); reflexivity.
Qed.

Lemma query_status_run (d : Device) (w : World) :
  queryStatus d w =
  (inr [(device_name d, JBool (String.eqb (stored w (status_key d)) "on"))], w).
Proof.
  destruct d;
    unfold queryStatus, get_lamp_status, get_tv_status, get_radio_status,
      get_kitchen_light_status, mbind, M_bind;
    rewrite get_device_status_run; reflexivity.
Qed.

Lemma query_volume_run (d : VolumeDevice) (w : World) :
  queryVolume d w =
  (inr [(volume_key d, JInt (int_or (default_volume d) (stored w (volume_key d))))], w).
Proof.
  destruct d; unfold queryVolume, get_tv_volume, get_radio_volume, mbind, M_bind;
    rewrite get_device_status_run; reflexivity.
Qed.

Lemma websocket_receive_run (data : string) (w : World) :
  websocket_receive data w
  = (inr tt,
     if (length (Py.split ":" data) =? 3)%nat
     then set_store
            (<[Py.lower (nth 0 (Py.split ":" data) "") ++ "_"
               ++ Py.lower (nth 1 (Py.split ":" data) "")
               := Py.lower (nth 2 (Py.split ":" data) "")]> (device_states w)) w
     else w).
Proof.
  unfold websocket_receive. cbv zeta.
  destruct (length (Py.split ":" data) =? 3)%nat; reflexivity.
Qed.

(** ** Numbers and their text *)

(** [int] skips the six white-space characters and nothing else: a
    leading information separator (code 28) makes the text unparsable. *)
Example int_of_str_white_space :
  Py.int_of_str (String (ascii_of_nat 9) (String (ascii_of_nat 32) "70"))
  = Some 70
  /\ Py.int_of_str (String (ascii_of_nat 28) "70") = None
  /\ Py.int_of_str "7 0" = None
  /\ Py.int_of_str "-1_0" = Some (-10)
  /\ Py.int_of_str "off" = None.
Proof. repeat split. Qed.

Lemma clamp_range (n : Z) : 0 <= clamp n <= 100.
Proof. unfold clamp. lia. Qed.

(** Printing then parsing gives the number back, for every volume. *)
Lemma str_of_int_parses (n : Z) :
  0 <= n <= 100 ->
  Py.int_of_str (Py.str_of_int n) = Some n /\ Py.str_of_int n <> "".
Proof.
  intros Hn.
  assert (Hall : forallb
            (fun k => bool_decide (Py.int_of_str (Py.str_of_int (Z.of_nat k))
                                   = Some (Z.of_nat k))
                      && negb (String.eqb (Py.str_of_int (Z.of_nat k)) ""))
            (seq 0 101) = true) by (vm_compute; reflexivity).
  rewrite forallb_forall in Hall.
  specialize (Hall (Z.to_nat n)).
  rewrite Z2Nat.id in Hall by lia.
  assert (Hin : In (Z.to_nat n) (seq 0 101)) by (apply in_seq; lia).
  apply Hall in Hin. apply andb_true_iff in Hin as [H1 H2].
  apply bool_decide_eq_true in H1. split; [exact H1|].
  intros E. rewrite E in H2. discriminate.
Qed.

Lemma stored_insert (w : World) (m : gmap string string) (key v : string) :
  v <> "" -> stored (set_store (<[key := v]> m) w) key = v.
Proof.
  intros Hv. unfold stored, set_store; cbn.
  rewrite lookup_insert_eq. destruct (USE_REDIS w); cbn; [|reflexivity].
  destruct v; [contradiction|reflexivity].
Qed.

(** ** Volume changes *)

Lemma clamp_spec (n : Z) : clamp n = spec_clamp n.
Proof.
  unfold clamp, spec_clamp.
  destruct (Z.ltb_spec n 0); [lia|]. destruct (Z.ltb_spec 100 n); lia.
Qed.

Lemma spec_clamp_range (n : Z) : 0 <= spec_clamp n <= 100.
Proof. rewrite <- clamp_spec. apply clamp_range. Qed.

Lemma int_or_spec (fallback : Z) (text : string) (delta : Q) :
  clamp (int_or fallback text + truncate delta) = spec_volume fallback text delta.
Proof.
  unfold spec_volume, int_or. rewrite clamp_spec.
  destruct (Py.int_of_str text); reflexivity.
Qed.

(** A controller is connected and the delta is an infinity: the frame goes
    out, the handler raises, and the stored volume is still the text "50",
    not "100".  A controller is registered but its socket is closed: the
    handler raises and the store is as before. *)
Lemma adjustVolume_counterexample :
  (let w := connected_world 1%nat initial_device_states in
   let c := {| change := Py.Inf false |} in
   unity_ws w = Some 1%nat
   /\ fst (adjustVolume sample_format vol_tv c w) = inl Py.OverflowError
   /\ device_states (snd (adjustVolume sample_format vol_tv c w)) !! "tv_volume"
      = Some "50")
  /\
  (let w := mkWorld false initial_device_states (Some 1%nat) ∅ [] in
   let c := {| change := Py.Finite 50 |} in
   unity_ws w = Some 1%nat
   /\ fst (adjustVolume sample_format vol_tv c w) = inl Py.ConnectionClosed
   /\ device_states (snd (adjustVolume sample_format vol_tv c w)) !! "tv_volume"
      = Some "50"
   /\ spec_volume 50 "50" 50 = 100).
Proof. cbv zeta. repeat split; vm_compute; reflexivity. Qed.

(** C1 (amended). A volume change on tv or radio made while a controller
    is registered, its socket takes the frame and the delta is a finite
    number: for every stored value, the handler returns
    clamp(current + truncate(delta), 0, 100), where current is the stored
    value parsed as an integer or the device default (50 for tv, 6 for
    radio) when it does not parse; it stores the decimal text of that
    number under the volume key, and the volume stored afterwards parses to
    that number, which lies in [0,100]. *)
Theorem adjustVolume_stores_clamped
  (format_float : Py.float -> string) (d : VolumeDevice)
  (command : VolumeCommand) (w : World) (ws : WebSocket) (q : Q) :
  unity_ws w = Some ws ->
  ws ∈ open_sockets w ->
  change command = Py.Finite q ->
  let new_vol := spec_volume (default_volume d) (stored w (volume_key d)) q in
  let result := adjustVolume format_float d command w in
  fst result
    = inr [("message", JStr (volume_sent d));
           ("command", JStr (volume_name d ++ ":volume:" ++ format_float (change command)));
           ("new_volume", JInt new_vol)]
  /\ device_states (snd result)
    = <[volume_key d := Py.str_of_int new_vol]> (device_states w)
  /\ stored (snd result) (volume_key d) = Py.str_of_int new_vol
  /\ Py.int_of_str (stored (snd result) (volume_key d)) = Some new_vol
  /\ 0 <= new_vol <= 100.
Proof.
  intros Hws Hopen Hq new_vol result.
  pose proof (spec_clamp_range
                (match Py.int_of_str (stored w (volume_key d)) with
                 | Some v => v
                 | None => default_volume d
                 end + truncate q)) as Hrange.
  fold (spec_volume (default_volume d) (stored w (volume_key d)) q) in Hrange.
  fold new_vol in Hrange.
  destruct (str_of_int_parses new_vol Hrange) as [Hparse Hne].
  assert (Hres : result =
    (inr (volume_changed d (volume_message format_float d command) new_vol),
     set_store (<[volume_key d := Py.str_of_int new_vol]> (device_states w))
       (push_sent ws (volume_message format_float d command) w))).
  { unfold result. rewrite adjust_run. unfold adjust_outcome.
    rewrite Hws, (bool_decide_eq_true_2 _ Hopen), Hq. cbv zeta. cbn [Py.int_of_float].
    fold (truncate q). rewrite int_or_spec. reflexivity. }
  rewrite Hres; cbn [fst snd].
  rewrite stored_insert by exact Hne.
  repeat split; try reflexivity; try exact Hparse; apply Hrange.
Qed.

(** From the stored "20", a delta of 7.5 gives 27. *)
Lemma adjustVolume_stores_clamped_witness :
  let w := connected_world 1%nat (<["tv_volume" := "20"]> initial_device_states) in
  let result := adjustVolume sample_format vol_tv {| change := Py.Finite (15 # 2) |} w in
  fst result
    = inr [("message", JStr "TV volume command sent");
           ("command", JStr "tv:volume:7.5"); ("new_volume", JInt 27)]
  /\ device_states (snd result)
     = <["tv_volume" := "27"]> (<["tv_volume" := "20"]> initial_device_states)
  /\ stored (snd result) "tv_volume" = "27"
  /\ Py.int_of_str (stored (snd result) "tv_volume") = Some 27
  /\ 0 <= 27 <= 100.
Proof.
  assert (Hopen : 1%nat ∈ open_sockets
            (connected_world 1%nat (<["tv_volume" := "20"]> initial_device_states))).
  { unfold connected_world, WebSocket; cbn [open_sockets].
    apply elem_of_singleton_2. reflexivity. }
  pose proof (adjustVolume_stores_clamped sample_format vol_tv
           {| change := Py.Finite (15 # 2) |}
           (connected_world 1%nat (<["tv_volume" := "20"]> initial_device_states))
           1%nat (15 # 2) eq_refl Hopen eq_refl) as H.
  vm_compute in H. vm_compute. exact H.
Defined.

(** The two examples of the specification: from 95, +50 stores 100; from 5,
    -50 stores 0. *)
Example adjustVolume_up_from_95 :
  let w := connected_world 1%nat (<["tv_volume" := "95"]> initial_device_states) in
  let result := adjustVolume sample_format vol_tv {| change := Py.Finite 50 |} w in
  fst result = inr (volume_changed vol_tv "tv:volume:50.0" 100)
  /\ stored (snd result) "tv_volume" = "100".
Proof. split; vm_compute; reflexivity. Qed.

Example adjustVolume_down_from_5 :
  let w := connected_world 1%nat (<["radio_volume" := "5"]> initial_device_states) in
  let result := adjustVolume sample_format vol_radio {| change := Py.Finite (-50) |} w in
  fst result = inr (volume_changed vol_radio "radio:volume:-50.0" 0)
  /\ stored (snd result) "radio_volume" = "0".
Proof. split; vm_compute; reflexivity. Qed.

(** A delta that is not finite is sent and then makes [int] raise: nothing
    is stored. *)
Example adjustVolume_infinite_delta :
  let w := connected_world 1%nat initial_device_states in
  let result := adjustVolume sample_format vol_tv {| change := Py.Inf false |} w in
  fst result = inl Py.OverflowError
  /\ sent (snd result) = [(1%nat, "tv:volume:inf")]
  /\ device_states (snd result) = device_states w.
Proof. repeat split. Qed.

(** ** No controller registered *)

(** C2. With no controller registered ([unity_ws] is None), every toggle
    and every volume change returns the error response as a value — no
    exception is raised — and leaves the whole state as it was: the store
    is unchanged and nothing is sent. *)
Theorem no_controller_error_result
  (format_float : Py.float -> string) (w : World) :
  unity_ws w = None ->
  (forall (d : Device) (c : DeviceCommand),
      toggle d c w = (inr not_connected, w))
  /\ (forall (d : VolumeDevice) (c : VolumeCommand),
      adjustVolume format_float d c w = (inr not_connected, w)).
Proof.
  intros Hnone. split; intros d c.
  - rewrite toggle_run. unfold toggle_outcome. rewrite Hnone. reflexivity.
  - rewrite adjust_run. unfold adjust_outcome. rewrite Hnone. reflexivity.
Qed.

Lemma no_controller_error_result_witness :
  (forall (d : Device) (c : DeviceCommand),
      toggle d c initial_world = (inr not_connected, initial_world))
  /\ (forall (d : VolumeDevice) (c : VolumeCommand),
      adjustVolume sample_format d c initial_world
      = (inr not_connected, initial_world)).
Proof. exact (no_controller_error_result sample_format initial_world eq_refl). Defined.

(** ** Stored values are lower-case

    Everything the module writes is lower-cased text or the decimal text of
    a clamped volume, and the initial dict is lower-case. *)

Lemma lower_ascii_idem (c : ascii) :
  Py.lower_ascii (Py.lower_ascii c) = Py.lower_ascii c.
Proof. destruct c as [[] [] [] [] [] [] [] []]; reflexivity. Qed.

Lemma lower_idem (s : string) : Py.lower (Py.lower s) = Py.lower s.
Proof.
  induction s as [|c s IH]; [reflexivity|].
  cbn [Py.lower]. rewrite lower_ascii_idem, IH. reflexivity.
Qed.

Lemma is_lower_lower (s : string) : is_lower (Py.lower s) = true.
Proof. unfold is_lower. rewrite lower_idem. apply String.eqb_refl. Qed.

Lemma is_lower_volume (n : Z) : is_lower (Py.str_of_int (clamp n)) = true.
Proof.
  pose proof (clamp_range n) as Hn. generalize dependent (clamp n). intros m Hm.
  assert (Hall : forallb (fun k => is_lower (Py.str_of_int (Z.of_nat k)))
                   (seq 0 101) = true) by (vm_compute; reflexivity).
  rewrite forallb_forall in Hall.
  specialize (Hall (Z.to_nat m)). rewrite Z2Nat.id in Hall by lia.
  apply Hall, in_seq. lia.
Qed.

Lemma all_lower_write (w w' : World) (key v : string) :
  device_states w' = <[key := v]> (device_states w) ->
  is_lower v = true -> all_lower w -> all_lower w'.
Proof.
  unfold all_lower. intros -> Hv Hw. apply map_Forall_insert_2; assumption.
Qed.

Lemma all_lower_same_store (w w' : World) :
  device_states w' = device_states w -> all_lower w -> all_lower w'.
Proof. unfold all_lower. intros ->. exact id. Qed.

Lemma all_lower_toggle (d : Device) (c : DeviceCommand) (w : World) :
  all_lower w -> all_lower (snd (toggle d c w)).
Proof.
  intros Hw. rewrite toggle_run. unfold toggle_outcome.
  destruct (unity_ws w) as [ws|]; [|exact Hw]. cbv zeta.
  destruct (String.eqb _ _); [exact Hw|].
  destruct (bool_decide _); [|exact Hw]. cbn [snd].
  apply (all_lower_write w _ (status_key d) (Py.lower (state c)));
    [reflexivity|apply is_lower_lower|exact Hw].
Qed.

Lemma all_lower_adjust (format_float : Py.float -> string) (d : VolumeDevice)
  (c : VolumeCommand) (w : World) :
  all_lower w -> all_lower (snd (adjustVolume format_float d c w)).
Proof.
  intros Hw. rewrite adjust_run. unfold adjust_outcome.
  destruct (unity_ws w) as [ws|]; [|exact Hw]. cbv zeta.
  destruct (bool_decide _); [|exact Hw].
  destruct (Py.int_of_float (change c)) as [e|delta]; cbn [snd].
  - apply (all_lower_same_store w); [reflexivity|exact Hw].
  - eapply (all_lower_write w); [reflexivity|apply is_lower_volume|exact Hw].
Qed.

Lemma all_lower_receive (data : string) (w : World) :
  all_lower w -> all_lower (snd (websocket_receive data w)).
Proof.
  intros Hw. rewrite websocket_receive_run. cbn [snd].
  destruct (length (Py.split ":" data) =? 3)%nat; [|exact Hw].
  eapply (all_lower_write w); [reflexivity|apply is_lower_lower|exact Hw].
Qed.

Lemma all_lower_step (format_float : Py.float -> string) (e : Event) (w : World) :
  all_lower w -> all_lower (step format_float w e).
Proof.
  intros Hw. destruct e as [ws|ws data|ws|ws|r]; cbn [step].
  - destruct (bool_decide _); [exact Hw|].
    apply (all_lower_same_store w); [reflexivity|exact Hw].
  - destruct (bool_decide _); [|exact Hw]. apply all_lower_receive, Hw.
  - destruct (bool_decide _); [|exact Hw].
    apply (all_lower_same_store w); [reflexivity|exact Hw].
  - apply (all_lower_same_store w); [reflexivity|exact Hw].
  - destruct r; cbn [handle].
    + apply (all_lower_toggle lamp), Hw.
    + rewrite (query_status_run lamp). exact Hw.
    + apply (all_lower_toggle tv), Hw.
    + rewrite (query_status_run tv). exact Hw.
    + apply (all_lower_adjust format_float vol_tv), Hw.
    + rewrite (query_volume_run vol_tv). exact Hw.
    + apply (all_lower_toggle radio), Hw.
    + rewrite (query_status_run radio). exact Hw.
    + apply (all_lower_adjust format_float vol_radio), Hw.
    + rewrite (query_volume_run vol_radio). exact Hw.
    + apply (all_lower_toggle kitchenlight), Hw.
    + rewrite (query_status_run kitchenlight). exact Hw.
Qed.

Lemma all_lower_run (format_float : Py.float -> string) (es : list Event) (w : World) :
  all_lower w -> all_lower (run format_float es w).
Proof.
  revert w. induction es as [|e es IH]; intros w Hw; [exact Hw|].
  unfold run. cbn [foldl]. apply IH, all_lower_step, Hw.
Qed.

Lemma all_lower_initial : all_lower initial_world.
Proof.
  unfold all_lower, initial_world, initial_device_states. cbn [device_states].
  repeat (apply map_Forall_insert_2; [reflexivity|]).
  apply map_Forall_empty.
Qed.

(** What is read from a lower-case store is lower-case. *)
Lemma stored_is_lower (w : World) (key : string) :
  all_lower w -> is_lower (stored w key) = true.
Proof.
  intros Hw. unfold stored.
  destruct (device_states w !! key) as [v|] eqn:Hv.
  - pose proof (Hw key v Hv) as Hl. cbn in Hl.
    destruct (USE_REDIS w); cbn; [|exact Hl].
    destruct v; [reflexivity|exact Hl].
  - destruct (USE_REDIS w); reflexivity.
Qed.

(** ** Toggles *)

Lemma connected_world_open (ws : WebSocket) (m : gmap string string) :
  ws ∈ open_sockets (connected_world ws m).
Proof.
  unfold connected_world, WebSocket; cbn [open_sockets].
  apply elem_of_singleton_2. reflexivity.
Qed.

Lemma lower_nonempty (s : string) : s <> "" -> Py.lower s <> "".
Proof. destruct s; [contradiction|discriminate]. Qed.

(** What a toggle leaves in the store reads back as the wanted state,
    unless the backend is Redis and the state is empty. *)
Lemma stored_after_toggle (d : Device) (desired_state message : string)
  (ws : WebSocket) (w : World) :
  USE_REDIS w = false \/ desired_state <> "" ->
  stored (set_store (<[status_key d := desired_state]> (device_states w))
            (push_sent ws message w)) (status_key d) = desired_state.
Proof.
  intros H. unfold stored, set_store, push_sent; cbn.
  rewrite lookup_insert_eq.
  destruct (USE_REDIS w); cbn; [|reflexivity].
  destruct H as [H|H]; [discriminate|].
  destruct desired_state; [contradiction|reflexivity].
Qed.

(** The exit taken when the device is already in the wanted state. *)
Lemma toggle_in_state (d : Device) (c : DeviceCommand) (w : World) (ws : WebSocket) :
  unity_ws w = Some ws ->
  stored w (status_key d) = Py.lower (state c) ->
  toggle d c w = (inr (already_in_state d (Py.lower (state c))), w).
Proof.
  intros Hws Heq. rewrite toggle_run. unfold toggle_outcome.
  rewrite Hws. cbv zeta. rewrite Heq, String.eqb_refl. reflexivity.
Qed.

(** With the Redis backend and an empty database, a controller connects
    and the same toggle with an empty state is posted twice: the first call
    stores the empty string, which reads back as "off", so the second call
    finds the stored status (empty) equal to the requested one and still
    sends — two frames for two identical calls.  And where the Redis store
    holds the status "ON", a request for "on" is sent although the two are
    equal up to case. *)
Lemma toggle_noop_counterexample :
  (let empty_redis := mkWorld true ∅ None ∅ [] in
   let e := {| state := "" |} in
   let w1 := run sample_format [Connect 1%nat; Http (PostLamp e)] empty_redis in
   device_states w1 !! status_key lamp = Some (state e)
   /\ unity_ws w1 = Some 1%nat
   /\ fst (toggle lamp e w1) = inr (command_sent "lamp:status:")
   /\ sent (run sample_format
              [Connect 1%nat; Http (PostLamp e); Http (PostLamp e)] empty_redis)
      = [(1%nat, "lamp:status:"); (1%nat, "lamp:status:")])
  /\
  (let w := mkWorld true (<["lamp_status" := "ON"]> ∅) (Some 1%nat) {[1%nat]} [] in
   let c := {| state := "on" |} in
   Py.lower (stored w (status_key lamp)) = Py.lower (state c)
   /\ fst (toggle lamp c w) = inr (command_sent "lamp:status:on")
   /\ sent (snd (toggle lamp c w)) = [(1%nat, "lamp:status:on")]
   /\ device_states (snd (toggle lamp c w)) <> device_states w).
Proof.
  cbv zeta. split; [repeat split; vm_compute; reflexivity|].
  repeat split; try (vm_compute; reflexivity).
  intros E.
  apply (f_equal (fun m : gmap string string => m !! "lamp_status")) in E.
  vm_compute in E. discriminate.
Qed.

(** C3 (amended). With a controller registered, a toggle whose lower-cased
    requested state equals the status read from the store returns the
    "already" acknowledgement, sends nothing and leaves the whole state
    unchanged; the stored side is compared as it is, so the comparison is
    case-insensitive when the stored status has no upper-case letter, which
    is so in every state reached from the initial in-memory state.  Two
    identical toggles in a row add at most one frame to the
    wire, given the in-memory backend or a non-empty requested state. *)
Theorem toggle_noop_when_in_state
  (d : Device) (c : DeviceCommand) (w : World) (ws : WebSocket) :
  unity_ws w = Some ws ->
  (stored w (status_key d) = Py.lower (state c) ->
   toggle d c w = (inr (already_in_state d (Py.lower (state c))), w))
  /\ (is_lower (stored w (status_key d)) = true ->
      Py.lower (stored w (status_key d)) = Py.lower (state c) ->
      toggle d c w = (inr (already_in_state d (Py.lower (state c))), w))
  /\ (forall (format_float : Py.float -> string) (es : list Event),
        w = run format_float es initial_world ->
        Py.lower (stored w (status_key d)) = Py.lower (state c) ->
        toggle d c w = (inr (already_in_state d (Py.lower (state c))), w))
  /\ (USE_REDIS w = false \/ state c <> "" ->
      (length (sent (snd (toggle d c (snd (toggle d c w)))))
       <= S (length (sent w)))%nat).
Proof.
  intros Hws.
  pose proof (toggle_in_state d c w ws Hws) as Hnoop.
  assert (Hfold : is_lower (stored w (status_key d)) = true ->
                  Py.lower (stored w (status_key d)) = Py.lower (state c) ->
                  toggle d c w = (inr (already_in_state d (Py.lower (state c))), w)).
  { intros Hlow Heq. apply Hnoop.
    unfold is_lower in Hlow. apply String.eqb_eq in Hlow. congruence. }
  split; [exact Hnoop|split; [exact Hfold|split]].
  - intros format_float es Hrun. apply Hfold, stored_is_lower.
    rewrite Hrun. apply all_lower_run, all_lower_initial.
  - intros Hback.
    rewrite (toggle_run d c w). unfold toggle_outcome at 1.
    rewrite Hws. cbv zeta.
    destruct (String.eqb (stored w (status_key d)) (Py.lower (state c))) eqn:Heq.
    + apply String.eqb_eq in Heq. cbn [snd]. rewrite (Hnoop Heq). cbn [snd]. lia.
    + destruct (bool_decide (ws ∈ open_sockets w)) eqn:Hopen; cbn [snd].
      * rewrite (toggle_in_state d c _ ws); [| exact Hws |].
        { cbn [snd sent set_store push_sent]. rewrite length_app. cbn. lia. }
        apply stored_after_toggle.
        destruct Hback as [H|H]; [left; exact H|right; apply lower_nonempty, H].
      * rewrite toggle_run. unfold toggle_outcome. rewrite Hws. cbv zeta.
        rewrite Heq, Hopen. cbn [snd]. lia.
Qed.

Lemma toggle_noop_when_in_state_witness :
  let w := run sample_format [Connect 1%nat] initial_world in
  let c := {| state := "ON" |} in
  toggle lamp c w = (inr (already_in_state lamp (Py.lower (state c))), w)
  /\ toggle lamp c w = (inr (already_in_state lamp (Py.lower (state c))), w)
  /\ toggle lamp c w = (inr (already_in_state lamp (Py.lower (state c))), w)
  /\ (length (sent (snd (toggle lamp c (snd (toggle lamp c w)))))
      <= S (length (sent w)))%nat.
Proof.
  intros w c.
  destruct (toggle_noop_when_in_state lamp c w 1%nat eq_refl)
    as (H1 & H2 & H3 & H4).
  split; [apply H1; reflexivity|].
  split; [apply H2; reflexivity|].
  split; [apply (H3 sample_format [Connect 1%nat]); reflexivity|].
  apply H4. left. reflexivity.
Defined.

(** The second call of the specification's example: off, then "on" twice. *)
Example toggle_twice_sends_once :
  let w := connected_world 1%nat (<["lamp_status" := "off"]> initial_device_states) in
  let c := {| state := "on" |} in
  sent (snd (toggle lamp c w)) = [(1%nat, "lamp:status:on")]
  /\ fst (toggle lamp c (snd (toggle lamp c w)))
     = inr [("message", JStr "Lamp is already on.")]
  /\ sent (snd (toggle lamp c (snd (toggle lamp c w)))) = [(1%nat, "lamp:status:on")].
Proof. repeat split. Qed.

(** ** The text of a status command *)

Lemma is_lower_status_message (d : Device) (c : DeviceCommand) :
  is_lower (status_message d c) = is_lower (state c).
Proof. destruct d; reflexivity. Qed.

(** The request asks for "OFF": the frame carries "OFF", not "off". *)
Lemma toggle_wire_lowercase_counterexample :
  let w := connected_world 1%nat initial_device_states in
  let c := {| state := "OFF" |} in
  sent (snd (toggle lamp c w)) = [(1%nat, "lamp:status:OFF")]
  /\ is_lower "lamp:status:OFF" = false
  /\ "lamp:status:OFF" <> "lamp:status:" ++ Py.lower (state c).
Proof. repeat split. discriminate. Qed.

(** C7 (amended). A toggle sends at most one frame, to the registered
    socket, and its text is "{device}:status:{state}" with the state as the
    caller supplied it — it is not lower-cased; the lower-cased state is
    what goes into the store.  The text is free of upper-case letters
    exactly when the supplied state is.  The frame is sent whenever the
    registered socket is open and the stored status differs from the
    lower-cased state. *)
Theorem toggle_sends_state_verbatim (d : Device) (c : DeviceCommand) (w : World) :
  let w' := snd (toggle d c w) in
  (sent w' = sent w
   \/ exists ws, unity_ws w = Some ws
        /\ sent w' = (sent w ++ [(ws, status_message d c)])%list
        /\ device_states w'
           = <[status_key d := Py.lower (state c)]> (device_states w))
  /\ status_message d c = device_name d ++ ":status:" ++ state c
  /\ is_lower (status_message d c) = is_lower (state c)
  /\ (forall ws, unity_ws w = Some ws -> ws ∈ open_sockets w ->
        stored w (status_key d) <> Py.lower (state c) ->
        fst (toggle d c w)
          = inr (command_sent (status_message d c))
        /\ sent w' = (sent w ++ [(ws, status_message d c)])%list).
Proof.
  cbv zeta. rewrite toggle_run. unfold toggle_outcome.
  split; [|split; [reflexivity|split]].
  - destruct (unity_ws w) as [ws|]; [|left; reflexivity]. cbv zeta.
    destruct (String.eqb _ _); [left; reflexivity|].
    destruct (bool_decide _); [|left; reflexivity].
    right. exists ws. repeat split.
  - apply is_lower_status_message.
  - intros ws Hws Hopen Hne. rewrite Hws. cbv zeta.
    apply String.eqb_neq in Hne. rewrite Hne.
    rewrite (bool_decide_eq_true_2 _ Hopen). split; reflexivity.
Qed.

Lemma toggle_sends_state_verbatim_witness :
  let w := connected_world 1%nat initial_device_states in
  let c := {| state := "OFF" |} in
  fst (toggle kitchenlight c w) = inr (command_sent "kitchenlight:status:OFF")
  /\ sent (snd (toggle kitchenlight c w)) = [(1%nat, "kitchenlight:status:OFF")].
Proof.
  intros w c.
  destruct (toggle_sends_state_verbatim kitchenlight c w) as (_ & _ & _ & H).
  apply (H 1%nat).
  - reflexivity.
  - apply connected_world_open.
  - vm_compute. discriminate.
Defined.

(** ** Inbound messages *)

(** The message "tv:status:" has an empty third part, and it is stored:
    tv_status becomes the empty string.  The message "::" writes the key
    "_". *)
Lemma websocket_receive_nonempty_counterexample :
  three_nonempty_parts "tv:status:" = false
  /\ device_states (snd (websocket_receive "tv:status:" initial_world)) !! "tv_status"
     = Some ""
  /\ device_states initial_world !! "tv_status" = Some "off"
  /\ device_states (snd (websocket_receive "tv:status:" initial_world))
     <> device_states initial_world
  /\ three_nonempty_parts "::" = false
  /\ device_states (snd (websocket_receive "::" initial_world)) !! "_" = Some "".
Proof.
  repeat split; try (vm_compute; reflexivity).
  intros E.
  apply (f_equal (fun m : gmap string string => m !! "tv_status")) in E.
  vm_compute in E. discriminate.
Qed.

(** C6 (amended). An inbound text changes the store only if splitting it on
    ':' gives exactly three parts, empty or not: then the lower-cased third
    part is stored under the key made of the lower-cased first two parts.
    Every other message is dropped without an exception and leaves the
    whole state unchanged. *)
Theorem websocket_receive_three_parts (data : string) (w : World) :
  fst (websocket_receive data w) = inr tt
  /\ (length (Py.split ":" data) <> 3%nat -> snd (websocket_receive data w) = w)
  /\ (forall p0 p1 p2 : string,
        Py.split ":" data = [p0; p1; p2] ->
        snd (websocket_receive data w)
        = set_store (<[Py.lower p0 ++ "_" ++ Py.lower p1 := Py.lower p2]>
                       (device_states w)) w).
Proof.
  unfold websocket_receive. cbv zeta.
  destruct (Nat.eqb_spec (length (Py.split ":" data)) 3) as [H3|H3].
  - repeat split; [intros Hne; contradiction|].
    intros p0 p1 p2 Hsplit. rewrite Hsplit. reflexivity.
  - repeat split. intros p0 p1 p2 Hsplit. rewrite Hsplit in H3. contradiction.
Qed.

Lemma websocket_receive_three_parts_witness :
  fst (websocket_receive "tv:volume" initial_world) = inr tt
  /\ snd (websocket_receive "tv:volume" initial_world) = initial_world
  /\ snd (websocket_receive "tv:volume:10:extra" initial_world) = initial_world
  /\ snd (websocket_receive "TV:Volume:-10" initial_world)
     = set_store (<["tv_volume" := "-10"]> (device_states initial_world))
         initial_world.
Proof.
  destruct (websocket_receive_three_parts "tv:volume" initial_world)
    as (H1 & H2 & _).
  destruct (websocket_receive_three_parts "tv:volume:10:extra" initial_world)
    as (_ & H3 & _).
  destruct (websocket_receive_three_parts "TV:Volume:-10" initial_world)
    as (_ & _ & H4).
  split; [exact H1|].
  split; [apply H2; vm_compute; discriminate|].
  split; [apply H3; vm_compute; discriminate|].
  apply (H4 "TV" "Volume" "-10"). reflexivity.
Defined.

(** ** Queries *)

Lemma stored_absent (w : World) (key : string) :
  device_states w !! key = None -> stored w key = "off".
Proof. intros H. unfold stored. rewrite H. destruct (USE_REDIS w); reflexivity. Qed.

(** Right after import with the in-memory backend the lamp reads as on. *)
Lemma initial_status_counterexample :
  fst (queryStatus lamp initial_world) = inr [("lamp", JBool true)]
  /\ fst (queryStatus kitchenlight initial_world) = inr [("kitchenlight", JBool true)]
  /\ fst (queryStatus lamp initial_world) <> inr [("lamp", JBool false)].
Proof. repeat split. discriminate. Qed.

(** C5 (amended). Where a key is absent from the store, the volume query
    returns the device default (50 for tv, 6 for radio) and the status
    query returns false, for every device.  The dict the in-memory backend
    starts from has all six keys: in that initial state the volumes are 50
    and 6, tv and radio are off, and lamp and kitchen light are on. *)
Theorem query_defaults (w : World) :
  (forall d : VolumeDevice,
      device_states w !! volume_key d = None ->
      fst (queryVolume d w) = inr [(volume_key d, JInt (default_volume d))])
  /\ (forall d : Device,
      device_states w !! status_key d = None ->
      fst (queryStatus d w) = inr [(device_name d, JBool false)])
  /\ fst (queryVolume vol_tv initial_world) = inr [("tv_volume", JInt 50)]
  /\ fst (queryVolume vol_radio initial_world) = inr [("radio_volume", JInt 6)]
  /\ fst (queryStatus tv initial_world) = inr [("tv", JBool false)]
  /\ fst (queryStatus radio initial_world) = inr [("radio", JBool false)]
  /\ fst (queryStatus lamp initial_world) = inr [("lamp", JBool true)]
  /\ fst (queryStatus kitchenlight initial_world)
     = inr [("kitchenlight", JBool true)].
Proof.
  split; [|split; [|repeat split]].
  - intros d Habs. rewrite query_volume_run. cbn [fst].
    rewrite (stored_absent _ _ Habs). destruct d; reflexivity.
  - intros d Habs. rewrite query_status_run. cbn [fst].
    rewrite (stored_absent _ _ Habs). reflexivity.
Qed.

Lemma query_defaults_witness :
  let w := mkWorld true ∅ None ∅ [] in
  fst (queryVolume vol_tv w) = inr [("tv_volume", JInt 50)]
  /\ fst (queryVolume vol_radio w) = inr [("radio_volume", JInt 6)]
  /\ fst (queryStatus lamp w) = inr [("lamp", JBool false)].
Proof.
  intros w.
  destruct (query_defaults w) as (Hv & Hs & _).
  split; [apply (Hv vol_tv); reflexivity|].
  split; [apply (Hv vol_radio); reflexivity|].
  apply (Hs lamp). reflexivity.
Defined.

(** C10. The status and volume queries never write: for every device and
    every state, the state after the query is the state before it.  A
    stored volume that does not parse as an integer is answered with the
    device default and stays in the store as it is. *)
Theorem queries_read_only (w : World) :
  (forall d : Device, snd (queryStatus d w) = w)
  /\ (forall d : VolumeDevice, snd (queryVolume d w) = w)
  /\ (forall d : VolumeDevice,
        Py.int_of_str (stored w (volume_key d)) = None ->
        queryVolume d w = (inr [(volume_key d, JInt (default_volume d))], w)).
Proof.
  split; [|split].
  - intros d. rewrite query_status_run. reflexivity.
  - intros d. rewrite query_volume_run. reflexivity.
  - intros d Hbad. rewrite query_volume_run. unfold int_or. rewrite Hbad.
    reflexivity.
Qed.

Lemma queries_read_only_witness :
  let w := connected_world 1%nat (<["tv_volume" := "loud"]> initial_device_states) in
  queryVolume vol_tv w = (inr [("tv_volume", JInt 50)], w)
  /\ device_states (snd (queryVolume vol_tv w)) !! "tv_volume" = Some "loud".
Proof.
  intros w.
  destruct (queries_read_only w) as (_ & Hframe & Hbad).
  split; [apply (Hbad vol_tv); reflexivity|].
  rewrite (Hframe vol_tv). reflexivity.
Defined.

(** ** A send that fails *)

(** The registered socket is closed: the toggle does not return an error
    response, it raises, and the registry still holds the closed socket. *)
Lemma send_failure_counterexample :
  let w := mkWorld false initial_device_states (Some 1%nat) ∅ [] in
  let c := {| state := "off" |} in
  fst (toggle lamp c w) = inl Py.ConnectionClosed
  /\ fst (toggle lamp c w) <> inr not_connected
  /\ unity_ws (snd (toggle lamp c w)) = Some 1%nat
  /\ unity_ws (snd (toggle lamp c w)) <> None
  /\ fst (adjustVolume sample_format vol_tv {| change := Py.Finite 50 |} w)
     = inl Py.ConnectionClosed
  /\ unity_ws (snd (adjustVolume sample_format vol_tv {| change := Py.Finite 50 |} w))
     = Some 1%nat.
Proof. repeat split; discriminate. Qed.

(** C8 (amended). When the send to the registered socket fails, the
    handler does not catch the failure: the exception leaves the handler,
    and the whole state is as before the call — the registry still holds
    the closed socket, the store is unchanged and nothing was sent.  This
    holds for every volume change and for every toggle that gets as far as
    sending (the stored status differs from the lower-cased state). *)
Theorem send_failure_propagates
  (format_float : Py.float -> string) (w : World) (ws : WebSocket) :
  unity_ws w = Some ws ->
  ws ∉ open_sockets w ->
  (forall (d : Device) (c : DeviceCommand),
      stored w (status_key d) <> Py.lower (state c) ->
      toggle d c w = (inl Py.ConnectionClosed, w))
  /\ (forall (d : VolumeDevice) (c : VolumeCommand),
      adjustVolume format_float d c w = (inl Py.ConnectionClosed, w)).
Proof.
  intros Hws Hclosed. split.
  - intros d c Hne. rewrite toggle_run. unfold toggle_outcome.
    rewrite Hws. cbv zeta. apply String.eqb_neq in Hne. rewrite Hne.
    rewrite (bool_decide_eq_false_2 _ Hclosed). reflexivity.
  - intros d c. rewrite adjust_run. unfold adjust_outcome.
    rewrite Hws. cbv zeta. rewrite (bool_decide_eq_false_2 _ Hclosed).
    reflexivity.
Qed.

Lemma send_failure_propagates_witness :
  let w := mkWorld false initial_device_states (Some 1%nat) ∅ [] in
  toggle radio {| state := "ON" |} w = (inl Py.ConnectionClosed, w)
  /\ adjustVolume sample_format vol_radio {| change := Py.Finite 50 |} w
     = (inl Py.ConnectionClosed, w).
Proof.
  intros w.
  assert (Hclosed : 1%nat ∉ open_sockets w) by apply not_elem_of_empty.
  destruct (send_failure_propagates sample_format w 1%nat eq_refl Hclosed)
    as [Ht Hv].
  split; [apply (Ht radio); vm_compute; discriminate|apply (Hv vol_radio)].
Defined.

(** ** The connection variable *)

Lemma step_connect (format_float : Py.float -> string) (w : World) (ws : WebSocket) :
  ws ∉ open_sockets w ->
  step format_float w (Connect ws)
  = set_unity_ws (Some ws) (set_open ({[ws]} ∪ open_sockets w) w).
Proof.
  intros Hnew. unfold step. rewrite (bool_decide_eq_false_2 _ Hnew). reflexivity.
Qed.

Lemma step_disconnect (format_float : Py.float -> string) (w : World) (ws : WebSocket) :
  ws ∈ open_sockets w ->
  step format_float w (Disconnect ws)
  = set_unity_ws None (set_open (open_sockets w ∖ {[ws]}) w).
Proof.
  intros Hopen. unfold step. rewrite (bool_decide_eq_true_2 _ Hopen). reflexivity.
Qed.

Lemma fresh_after_connect (o : gset WebSocket) (a b : WebSocket) :
  b ∉ o -> a <> b -> b ∉ ({[a]} ∪ o : gset WebSocket).
Proof.
  intros Hb Hab Hin. apply elem_of_union in Hin as [Hin|Hin].
  - apply elem_of_singleton in Hin. congruence.
  - exact (Hb Hin).
Qed.

(** A new connection takes the variable over from the one before it. *)
Lemma connect_supersedes (format_float : Py.float -> string) (w : World)
  (a b : WebSocket) :
  a ∉ open_sockets w -> b ∉ open_sockets w -> a <> b ->
  unity_ws (run format_float [Connect a; Connect b] w) = Some b.
Proof.
  intros Ha Hb Hab. unfold run. cbn [foldl].
  rewrite (step_connect _ w a Ha).
  rewrite step_connect; [reflexivity|].
  cbn [open_sockets set_unity_ws set_open]. apply fresh_after_connect; assumption.
Qed.

(** C4 (the code at the failing run). Controller [a] connects, controller
    [b] connects and takes the variable over, then the receive loop of [a]
    observes its disconnect: the variable is cleared although [b] is still
    open and was the one registered, and the next command is refused. *)
Theorem stale_disconnect_clears_registry
  (format_float : Py.float -> string) (w : World) (a b : WebSocket) :
  a ∉ open_sockets w -> b ∉ open_sockets w -> a <> b ->
  let w' := run format_float [Connect a; Connect b; Disconnect a] w in
  unity_ws (run format_float [Connect a; Connect b] w) = Some b
  /\ unity_ws w' = None
  /\ b ∈ open_sockets w'
  /\ (forall (d : Device) (c : DeviceCommand),
        toggle d c w' = (inr not_connected, w')).
Proof.
  intros Ha Hb Hab w'.
  assert (Hw' : unity_ws w' = None /\ b ∈ open_sockets w').
  { unfold w', run. cbn [foldl].
    rewrite (step_connect _ w a Ha).
    rewrite step_connect
      by (cbn [open_sockets set_unity_ws set_open];
          apply fresh_after_connect; assumption).
    rewrite step_disconnect
      by (cbn [open_sockets set_unity_ws set_open];
          apply elem_of_union_r, elem_of_union_l, elem_of_singleton_2;
          reflexivity).
    cbn [unity_ws open_sockets set_unity_ws set_open].
    split; [reflexivity|].
    apply elem_of_difference. split.
    - apply elem_of_union_l, elem_of_singleton_2. reflexivity.
    - intros Hin. apply elem_of_singleton in Hin. congruence. }
  destruct Hw' as [Hnone Hopen].
  split; [exact (connect_supersedes format_float w a b Ha Hb Hab)|].
  split; [exact Hnone|]. split; [exact Hopen|].
  intros d c. rewrite toggle_run. unfold toggle_outcome. rewrite Hnone.
  reflexivity.
Qed.

Lemma stale_disconnect_clears_registry_witness :
  let w' := run sample_format [Connect 1%nat; Connect 2%nat; Disconnect 1%nat]
              initial_world in
  unity_ws (run sample_format [Connect 1%nat; Connect 2%nat] initial_world)
  = Some 2%nat
  /\ unity_ws w' = None
  /\ 2%nat ∈ open_sockets w'
  /\ (forall (d : Device) (c : DeviceCommand),
        toggle d c w' = (inr not_connected, w')).
Proof.
  apply (stale_disconnect_clears_registry sample_format initial_world 1%nat 2%nat).
  - apply not_elem_of_empty.
  - apply not_elem_of_empty.
  - discriminate.
Defined.

(** ** Status values over runs *)

Lemma on_or_off_nonempty (v : string) : on_or_off v = true -> v <> "".
Proof. intros H E. rewrite E in H. discriminate. Qed.

(** A state with the same backend and the same store reads the same. *)
Lemma status_ok_same_store (w w' : World) :
  USE_REDIS w' = USE_REDIS w -> device_states w' = device_states w ->
  status_ok w -> status_ok w'.
Proof.
  intros Hb Hs Hok k Hk. unfold stored. rewrite Hb, Hs. apply (Hok k Hk).
Qed.

(** Writing one key keeps the status keys in range when the written value
    is in range or the key is not a status key. *)
Lemma status_ok_write (w w' : World) (key v : string) :
  USE_REDIS w' = USE_REDIS w ->
  device_states w' = <[key := v]> (device_states w) ->
  (key ∈ status_keys -> on_or_off v = true) ->
  status_ok w -> status_ok w'.
Proof.
  intros Hb Hs Hv Hok k Hk. unfold stored. rewrite Hb, Hs.
  destruct (decide (key = k)) as [->|Hne].
  - rewrite lookup_insert_eq. specialize (Hv Hk).
    pose proof (on_or_off_nonempty v Hv) as Hnon.
    destruct (USE_REDIS w); cbn; [|exact Hv].
    destruct v; [contradiction|exact Hv].
  - rewrite lookup_insert_ne by exact Hne. apply (Hok k Hk).
Qed.

Lemma status_ok_toggle (d : Device) (c : DeviceCommand) (w : World) :
  toggle_state_ok c = true -> status_ok w -> status_ok (snd (toggle d c w)).
Proof.
  intros Hc Hok. rewrite toggle_run. unfold toggle_outcome.
  destruct (unity_ws w) as [ws|]; [|exact Hok]. cbv zeta.
  destruct (String.eqb _ _); [exact Hok|].
  destruct (bool_decide _); [|exact Hok]. cbn [snd].
  apply (status_ok_write w _ (status_key d) (Py.lower (state c)));
    [reflexivity|reflexivity|intros _; exact Hc|exact Hok].
Qed.

Lemma volume_key_not_status (d : VolumeDevice) : volume_key d ∉ status_keys.
Proof.
  intros Hin. apply list_elem_of_In in Hin.
  destruct d; cbn in Hin; intuition discriminate.
Qed.

Lemma status_ok_adjust (format_float : Py.float -> string) (d : VolumeDevice)
  (c : VolumeCommand) (w : World) :
  status_ok w -> status_ok (snd (adjustVolume format_float d c w)).
Proof.
  intros Hok. rewrite adjust_run. unfold adjust_outcome.
  destruct (unity_ws w) as [ws|]; [|exact Hok]. cbv zeta.
  destruct (bool_decide _); [|exact Hok].
  destruct (Py.int_of_float (change c)) as [e|delta]; cbn [snd].
  - apply (status_ok_same_store w); [reflexivity|reflexivity|exact Hok].
  - apply (status_ok_write w _ (volume_key d)
             (Py.str_of_int
                (clamp (int_or (default_volume d) (stored w (volume_key d)) + delta))));
      [reflexivity|reflexivity| |exact Hok].
    intros Hin. destruct (volume_key_not_status d Hin).
Qed.

Lemma status_ok_receive (data : string) (w : World) :
  text_ok data = true -> status_ok w -> status_ok (snd (websocket_receive data w)).
Proof.
  intros Hd Hok. rewrite websocket_receive_run. cbn [snd].
  unfold text_ok in Hd. cbv zeta in Hd.
  destruct (length (Py.split ":" data) =? 3)%nat; [|exact Hok].
  eapply (status_ok_write w); [reflexivity|reflexivity| |exact Hok].
  intros Hin. rewrite (bool_decide_eq_true_2 _ Hin) in Hd. exact Hd.
Qed.

Lemma status_ok_step (format_float : Py.float -> string) (e : Event) (w : World) :
  event_ok e = true -> status_ok w -> status_ok (step format_float w e).
Proof.
  intros He Hok. destruct e as [ws|ws data|ws|ws|r]; cbn [step].
  - destruct (bool_decide _); [exact Hok|].
    apply (status_ok_same_store w); [reflexivity|reflexivity|exact Hok].
  - destruct (bool_decide _); [|exact Hok].
    apply status_ok_receive; [exact He|exact Hok].
  - destruct (bool_decide _); [|exact Hok].
    apply (status_ok_same_store w); [reflexivity|reflexivity|exact Hok].
  - apply (status_ok_same_store w); [reflexivity|reflexivity|exact Hok].
  - destruct r; cbn [handle].
    + apply (status_ok_toggle lamp); assumption.
    + rewrite (query_status_run lamp). exact Hok.
    + apply (status_ok_toggle tv); assumption.
    + rewrite (query_status_run tv). exact Hok.
    + apply (status_ok_adjust format_float vol_tv); assumption.
    + rewrite (query_volume_run vol_tv). exact Hok.
    + apply (status_ok_toggle radio); assumption.
    + rewrite (query_status_run radio). exact Hok.
    + apply (status_ok_adjust format_float vol_radio); assumption.
    + rewrite (query_volume_run vol_radio). exact Hok.
    + apply (status_ok_toggle kitchenlight); assumption.
    + rewrite (query_status_run kitchenlight). exact Hok.
Qed.

Lemma status_ok_initial : status_ok initial_world.
Proof.
  intros k Hk. apply list_elem_of_In in Hk. cbn in Hk.
  destruct Hk as [<-|[<-|[<-|[<-|[]]]]]; reflexivity.
Qed.

(** A toggle asking for "dim" stores "dim"; an inbound "tv:status:broken"
    stores "broken". *)
Lemma status_values_counterexample :
  let w1 := run sample_format
              [Connect 1%nat; Http (PostLamp {| state := "dim" |})] initial_world in
  let w2 := run sample_format
              [Connect 1%nat; Text 1%nat "tv:status:broken"] initial_world in
  device_states w1 !! "lamp_status" = Some "dim"
  /\ on_or_off "dim" = false
  /\ device_states w2 !! "tv_status" = Some "broken"
  /\ on_or_off "broken" = false.
Proof. repeat split; vm_compute; reflexivity. Qed.

(** C9 (amended). Along every run whose events keep to the protocol — each
    toggle asks for "on" or "off" in any casing, each inbound message that
    lands on a status key carries "on" or "off" in any casing — every status
    key reads as "on" or "off", from the initial state and from every state
    where that holds.  The handlers themselves do not check the values. *)
Theorem status_on_or_off_invariant
  (format_float : Py.float -> string) (es : list Event) (w : World) :
  status_ok w ->
  Forall (fun e => event_ok e = true) es ->
  status_ok (run format_float es w).
Proof.
  intros Hok Hes. revert w Hok.
  induction Hes as [|e es He _ IH]; intros w Hok; [exact Hok|].
  unfold run. cbn [foldl]. apply IH. apply status_ok_step; assumption.
Qed.

Lemma status_on_or_off_invariant_witness :
  status_ok
    (run sample_format
       [Connect 1%nat; Http (PostLamp {| state := "OFF" |});
        Text 1%nat "TV:Status:ON"; Http (PostTvVolume {| change := Py.Finite 50 |});
        Disconnect 1%nat]
       initial_world).
Proof.
  apply (status_on_or_off_invariant sample_format).
  - exact status_ok_initial.
  - repeat constructor.
Defined.

(** * Further properties of the module *)

(** ** The store helpers *)

(** X1. Writing a key and reading it back gives the written value, except
    that on the Redis backend an empty value reads back as "off"; reading
    any other key is unaffected; a second write to the key wins; and the
    write touches neither the connection variable nor the wire. *)
Theorem set_then_get (key v : string) (w : World) :
  let w' := snd (set_device_status key v w) in
  fst (get_device_status key w')
    = inr (if USE_REDIS w && String.eqb v "" then "off" else v)
  /\ (forall k : string, k <> key ->
        fst (get_device_status k w') = fst (get_device_status k w))
  /\ (forall v2 : string,
        snd (set_device_status key v2 w') = snd (set_device_status key v2 w))
  /\ unity_ws w' = unity_ws w
  /\ open_sockets w' = open_sockets w
  /\ sent w' = sent w.
Proof.
  cbv zeta. unfold set_device_status, modify. cbn [snd].
  repeat split.
  - rewrite get_device_status_run. cbn [fst]. unfold stored, set_store. cbn.
    rewrite lookup_insert_eq. destruct (USE_REDIS w); cbn; [|reflexivity].
    destruct v; reflexivity.
  - intros k Hk. rewrite !get_device_status_run. cbn [fst].
    unfold stored, set_store. cbn. rewrite lookup_insert_ne by congruence.
    reflexivity.
  - intros v2. unfold set_store. cbn. rewrite insert_insert_eq. reflexivity.
Qed.

(** ** Commands followed by queries *)

(** X2. After a toggle made with the registered socket open, the status
    query of the same device answers whether the lower-cased requested
    state is "on" — whether the toggle sent a command or found the device
    already in that state.  (On the Redis backend the requested state must
    not be empty.) *)
Theorem toggle_then_query (d : Device) (c : DeviceCommand) (w : World)
  (ws : WebSocket) :
  unity_ws w = Some ws ->
  ws ∈ open_sockets w ->
  USE_REDIS w = false \/ state c <> "" ->
  fst (queryStatus d (snd (toggle d c w)))
  = inr [(device_name d, JBool (String.eqb (Py.lower (state c)) "on"))].
Proof.
  intros Hws Hopen Hback. rewrite query_status_run. cbn [fst].
  rewrite toggle_run. unfold toggle_outcome. rewrite Hws. cbv zeta.
  destruct (String.eqb (stored w (status_key d)) (Py.lower (state c))) eqn:Heq.
  - apply String.eqb_eq in Heq. cbn [snd]. rewrite Heq. reflexivity.
  - rewrite (bool_decide_eq_true_2 _ Hopen). cbn [snd].
    rewrite stored_after_toggle; [reflexivity|].
    destruct Hback as [H|H]; [left; exact H|right; apply lower_nonempty, H].
Qed.

Lemma toggle_then_query_witness :
  let w := connected_world 1%nat initial_device_states in
  fst (queryStatus tv (snd (toggle tv {| state := "On" |} w)))
  = inr [("tv", JBool true)].
Proof.
  intros w.
  apply (toggle_then_query tv {| state := "On" |} w 1%nat).
  - reflexivity.
  - apply connected_world_open.
  - left. reflexivity.
Defined.

(** The state after a volume change that went through. *)
Lemma adjust_finite (format_float : Py.float -> string) (d : VolumeDevice)
  (c : VolumeCommand) (w : World) (ws : WebSocket) (q : Q) :
  unity_ws w = Some ws -> ws ∈ open_sockets w -> change c = Py.Finite q ->
  adjustVolume format_float d c w
  = (inr (volume_changed d (volume_message format_float d c)
            (clamp (int_or (default_volume d) (stored w (volume_key d)) + truncate q))),
     set_store
       (<[volume_key d :=
            Py.str_of_int
              (clamp (int_or (default_volume d) (stored w (volume_key d))
                      + truncate q))]> (device_states w))
       (push_sent ws (volume_message format_float d c) w)).
Proof.
  intros Hws Hopen Hq. rewrite adjust_run. unfold adjust_outcome.
  rewrite Hws, (bool_decide_eq_true_2 _ Hopen), Hq. reflexivity.
Qed.

(** X3. A volume change that goes through (registered socket open, finite
    delta) is what the volume query then reports, and a second change
    starts from it: the result of two changes in a row is
    clamp(clamp(current + t1) + t2), with no fallback to the default in
    between. *)
Theorem adjust_then_query (format_float : Py.float -> string) (d : VolumeDevice)
  (c1 c2 : VolumeCommand) (w : World) (ws : WebSocket) (q1 q2 : Q) :
  unity_ws w = Some ws ->
  ws ∈ open_sockets w ->
  change c1 = Py.Finite q1 ->
  change c2 = Py.Finite q2 ->
  let n1 := spec_volume (default_volume d) (stored w (volume_key d)) q1 in
  let n2 := spec_clamp (n1 + truncate q2) in
  let w1 := snd (adjustVolume format_float d c1 w) in
  fst (queryVolume d w1) = inr [(volume_key d, JInt n1)]
  /\ fst (adjustVolume format_float d c2 w1)
     = inr (volume_changed d (volume_message format_float d c2) n2)
  /\ fst (queryVolume d (snd (adjustVolume format_float d c2 w1)))
     = inr [(volume_key d, JInt n2)].
Proof.
  intros Hws Hopen Hq1 Hq2 n1 n2 w1.
  assert (Hw1 : w1 = set_store (<[volume_key d := Py.str_of_int n1]> (device_states w))
                       (push_sent ws (volume_message format_float d c1) w)).
  { unfold w1. rewrite (adjust_finite _ d c1 w ws q1 Hws Hopen Hq1).
    rewrite int_or_spec. reflexivity. }
  assert (Hr1 : 0 <= n1 <= 100) by apply spec_clamp_range.
  destruct (str_of_int_parses n1 Hr1) as [Hp1 Hne1].
  assert (Hst1 : stored w1 (volume_key d) = Py.str_of_int n1).
  { rewrite Hw1. apply stored_insert, Hne1. }
  assert (Hws1 : unity_ws w1 = Some ws) by (rewrite Hw1; exact Hws).
  assert (Hopen1 : ws ∈ open_sockets w1) by (rewrite Hw1; exact Hopen).
  assert (Hio : int_or (default_volume d) (Py.str_of_int n1) = n1)
    by (unfold int_or; rewrite Hp1; reflexivity).
  split; [|split].
  - rewrite query_volume_run. cbn [fst]. rewrite Hst1, Hio. reflexivity.
  - rewrite (adjust_finite _ d c2 w1 ws q2 Hws1 Hopen1 Hq2). cbn [fst].
    rewrite Hst1, Hio, clamp_spec. reflexivity.
  - rewrite (adjust_finite _ d c2 w1 ws q2 Hws1 Hopen1 Hq2). cbn [snd].
    rewrite query_volume_run. cbn [fst]. rewrite Hst1, Hio, clamp_spec.
    fold n2.
    destruct (str_of_int_parses n2 (spec_clamp_range _)) as [Hp2 Hne2].
    rewrite stored_insert by exact Hne2. unfold int_or. rewrite Hp2. reflexivity.
Qed.

(** From the stored "30": +7.5 gives 37, and +7.5 again gives 44. *)
Lemma adjust_then_query_witness :
  let w := connected_world 1%nat (<["radio_volume" := "30"]> initial_device_states) in
  let c := {| change := Py.Finite (15 # 2) |} in
  let w1 := snd (adjustVolume sample_format vol_radio c w) in
  fst (queryVolume vol_radio w1) = inr [("radio_volume", JInt 37)]
  /\ fst (adjustVolume sample_format vol_radio c w1)
     = inr (volume_changed vol_radio "radio:volume:7.5" 44)
  /\ fst (queryVolume vol_radio (snd (adjustVolume sample_format vol_radio c w1)))
     = inr [("radio_volume", JInt 44)].
Proof.
  pose proof (adjust_then_query sample_format vol_radio
                {| change := Py.Finite (15 # 2) |} {| change := Py.Finite (15 # 2) |}
                (connected_world 1%nat
                   (<["radio_volume" := "30"]> initial_device_states))
                1%nat (15 # 2) (15 # 2)
                eq_refl (connected_world_open _ _) eq_refl eq_refl) as H.
  vm_compute in H. vm_compute. exact H.
Defined.

(** ** Edge cases of a volume change *)

Lemma truncate_small (q : Q) : (-1 < q)%Q -> (q < 1)%Q -> truncate q = 0.
Proof.
  unfold Qlt, truncate. destruct q as [a b]. cbn [Qnum Qden]. intros Hlo Hhi.
  destruct (Z_lt_le_dec a 0) as [Hneg|Hpos].
  - rewrite <- (Z.opp_involutive a), Z.quot_opp_l by lia.
    rewrite Z.quot_small by lia. reflexivity.
  - apply Z.quot_small. lia.
Qed.

(** X4. A finite delta strictly between -1 and 1 is sent to the controller
    but, being truncated to 0, leaves a stored volume that is in range as
    it was: the handler answers with the old volume. *)
Theorem adjust_fraction_keeps_volume (format_float : Py.float -> string)
  (d : VolumeDevice) (c : VolumeCommand) (w : World) (ws : WebSocket) (q : Q) (n : Z) :
  unity_ws w = Some ws ->
  ws ∈ open_sockets w ->
  change c = Py.Finite q ->
  (-1 < q)%Q -> (q < 1)%Q ->
  Py.int_of_str (stored w (volume_key d)) = Some n ->
  0 <= n <= 100 ->
  let w' := snd (adjustVolume format_float d c w) in
  fst (adjustVolume format_float d c w)
    = inr (volume_changed d (volume_message format_float d c) n)
  /\ sent w' = (sent w ++ [(ws, volume_message format_float d c)])%list
  /\ Py.int_of_str (stored w' (volume_key d)) = Some n.
Proof.
  intros Hws Hopen Hq Hlo Hhi Hn Hrange w'. unfold w'.
  rewrite (adjust_finite _ d c w ws q Hws Hopen Hq).
  rewrite (truncate_small q Hlo Hhi).
  assert (Hio : int_or (default_volume d) (stored w (volume_key d)) = n)
    by (unfold int_or; rewrite Hn; reflexivity).
  rewrite Hio.
  replace (clamp (n + 0)) with n by (unfold clamp; lia).
  destruct (str_of_int_parses n Hrange) as [Hp Hne].
  cbn [fst snd]. rewrite stored_insert by exact Hne.
  split; [reflexivity|split; [reflexivity|exact Hp]].
Qed.

Lemma adjust_fraction_keeps_volume_witness :
  let w := connected_world 1%nat (<["tv_volume" := "20"]> initial_device_states) in
  let c := {| change := Py.Finite (-9 # 10) |} in
  fst (adjustVolume sample_format vol_tv c w)
    = inr (volume_changed vol_tv (volume_message sample_format vol_tv c) 20)
  /\ sent (snd (adjustVolume sample_format vol_tv c w))
     = (sent w ++ [(1%nat, volume_message sample_format vol_tv c)])%list
  /\ Py.int_of_str (stored (snd (adjustVolume sample_format vol_tv c w))
                      (volume_key vol_tv)) = Some 20.
Proof.
  intros w c.
  apply (adjust_fraction_keeps_volume sample_format vol_tv c w 1%nat (-9 # 10) 20).
  - reflexivity.
  - apply connected_world_open.
  - reflexivity.
  - reflexivity.
  - reflexivity.
  - reflexivity.
  - lia.
Defined.

(** X5. A delta that is not a finite number (an infinity or NaN) makes the
    handler raise after the frame has gone out: the frame is on the wire,
    the store and the connection variable are as before. *)
Theorem adjust_not_finite (format_float : Py.float -> string)
  (d : VolumeDevice) (c : VolumeCommand) (w : World) (ws : WebSocket) :
  unity_ws w = Some ws ->
  ws ∈ open_sockets w ->
  (forall q : Q, change c <> Py.Finite q) ->
  exists e : Py.exn,
    (e = Py.OverflowError \/ e = Py.ValueError)
    /\ adjustVolume format_float d c w
       = (inl e, push_sent ws (volume_message format_float d c) w).
Proof.
  intros Hws Hopen Hnf. rewrite adjust_run. unfold adjust_outcome.
  rewrite Hws, (bool_decide_eq_true_2 _ Hopen). cbv zeta.
  destruct (change c) as [q|b|] eqn:Hc.
  - destruct (Hnf q eq_refl).
  - exists Py.OverflowError. split; [left; reflexivity|reflexivity].
  - exists Py.ValueError. split; [right; reflexivity|reflexivity].
Qed.

Lemma adjust_not_finite_witness :
  let w := connected_world 1%nat initial_device_states in
  exists e : Py.exn,
    (e = Py.OverflowError \/ e = Py.ValueError)
    /\ adjustVolume sample_format vol_radio {| change := Py.NaN |} w
       = (inl e, push_sent 1%nat "radio:volume:nan" w).
Proof.
  intros w.
  apply (adjust_not_finite sample_format vol_radio {| change := Py.NaN |} w 1%nat).
  - reflexivity.
  - apply connected_world_open.
  - intros q. discriminate.
Defined.

(** ** What a request leaves alone *)

(** The effect of one request on everything but the store and the wire. *)
Lemma handle_outcome_cases (format_float : Py.float -> string) (r : Request)
  (w : World) :
  let w' := snd (handle format_float r w) in
  USE_REDIS w' = USE_REDIS w
  /\ unity_ws w' = unity_ws w
  /\ open_sockets w' = open_sockets w
  /\ (sent w' = sent w
      \/ exists (ws : WebSocket) (text : string),
           unity_ws w = Some ws /\ ws ∈ open_sockets w
           /\ sent w' = (sent w ++ [(ws, text)])%list).
Proof.
  assert (Htoggle : forall d c,
    let w' := snd (toggle d c w) in
    USE_REDIS w' = USE_REDIS w /\ unity_ws w' = unity_ws w
    /\ open_sockets w' = open_sockets w
    /\ (sent w' = sent w
        \/ exists (ws : WebSocket) (text : string),
             unity_ws w = Some ws /\ ws ∈ open_sockets w
             /\ sent w' = (sent w ++ [(ws, text)])%list)).
  { intros d c. cbv zeta. rewrite toggle_run. unfold toggle_outcome.
    destruct (unity_ws w) as [ws|] eqn:Hws; [|unchanged].
    cbv zeta. destruct (String.eqb _ _); [unchanged|].
    destruct (bool_decide (ws ∈ open_sockets w)) eqn:Hopen;
      [|unchanged].
    apply bool_decide_eq_true in Hopen. unchanged.
    right. exists ws, (status_message d c). unchanged. }
  assert (Hadjust : forall d c,
    let w' := snd (adjustVolume format_float d c w) in
    USE_REDIS w' = USE_REDIS w /\ unity_ws w' = unity_ws w
    /\ open_sockets w' = open_sockets w
    /\ (sent w' = sent w
        \/ exists (ws : WebSocket) (text : string),
             unity_ws w = Some ws /\ ws ∈ open_sockets w
             /\ sent w' = (sent w ++ [(ws, text)])%list)).
  { intros d c. cbv zeta. rewrite adjust_run. unfold adjust_outcome.
    destruct (unity_ws w) as [ws|] eqn:Hws; [|unchanged].
    cbv zeta.
    destruct (bool_decide (ws ∈ open_sockets w)) eqn:Hopen;
      [|unchanged].
    apply bool_decide_eq_true in Hopen.
    destruct (Py.int_of_float (change c)); unchanged;
      right; exists ws, (volume_message format_float d c); unchanged. }
  destruct r; cbn [handle].
  - apply (Htoggle lamp).
  - rewrite (query_status_run lamp). unchanged.
  - apply (Htoggle tv).
  - rewrite (query_status_run tv). unchanged.
  - apply (Hadjust vol_tv).
  - rewrite (query_volume_run vol_tv). unchanged.
  - apply (Htoggle radio).
  - rewrite (query_status_run radio). unchanged.
  - apply (Hadjust vol_radio).
  - rewrite (query_volume_run vol_radio). unchanged.
  - apply (Htoggle kitchenlight).
  - rewrite (query_status_run kitchenlight). unchanged.
Qed.

(** X6. A toggle writes no key but the status key of its device, and a
    volume change no key but the volume key of its device: every other
    entry of the store is as before, whatever the outcome. *)
Theorem commands_write_own_key (format_float : Py.float -> string) (w : World) :
  (forall (d : Device) (c : DeviceCommand) (k : string),
      k <> status_key d ->
      device_states (snd (toggle d c w)) !! k = device_states w !! k)
  /\ (forall (d : VolumeDevice) (c : VolumeCommand) (k : string),
      k <> volume_key d ->
      device_states (snd (adjustVolume format_float d c w)) !! k
      = device_states w !! k).
Proof.
  split.
  - intros d c k Hk. rewrite toggle_run. unfold toggle_outcome.
    destruct (unity_ws w) as [ws|]; [|reflexivity]. cbv zeta.
    destruct (String.eqb _ _); [reflexivity|].
    destruct (bool_decide _); [|reflexivity]. cbn.
    apply lookup_insert_ne. congruence.
  - intros d c k Hk. rewrite adjust_run. unfold adjust_outcome.
    destruct (unity_ws w) as [ws|]; [|reflexivity]. cbv zeta.
    destruct (bool_decide _); [|reflexivity].
    destruct (Py.int_of_float (change c)); [reflexivity|]. cbn.
    apply lookup_insert_ne. congruence.
Qed.

Lemma commands_write_own_key_witness :
  let w := connected_world 1%nat initial_device_states in
  device_states (snd (toggle lamp {| state := "off" |} w)) !! "tv_status"
  = device_states w !! "tv_status"
  /\ device_states (snd (adjustVolume sample_format vol_tv
                           {| change := Py.Finite 50 |} w)) !! "radio_volume"
     = device_states w !! "radio_volume".
Proof.
  intros w. destruct (commands_write_own_key sample_format w) as [Ht Hv].
  split; [apply (Ht lamp)|apply (Hv vol_tv)]; discriminate.
Defined.

(** X7. No request handler ever changes the connection variable, the set of
    open sockets or the backend flag; a request puts at most one frame on
    the wire, addressed to the registered socket; and the six GET requests
    change nothing at all. *)
Theorem request_effects (format_float : Py.float -> string) (r : Request)
  (w : World) :
  let w' := snd (handle format_float r w) in
  (USE_REDIS w' = USE_REDIS w
   /\ unity_ws w' = unity_ws w
   /\ open_sockets w' = open_sockets w
   /\ (sent w' = sent w
       \/ exists (ws : WebSocket) (text : string),
            unity_ws w = Some ws /\ ws ∈ open_sockets w
            /\ sent w' = (sent w ++ [(ws, text)])%list))
  /\ (is_post (Http r) = false -> w' = w).
Proof.
  split; [apply handle_outcome_cases|].
  destruct r; cbn [is_post handle]; intros Hget; try discriminate.
  - rewrite (query_status_run lamp). reflexivity.
  - rewrite (query_status_run tv). reflexivity.
  - rewrite (query_volume_run vol_tv). reflexivity.
  - rewrite (query_status_run radio). reflexivity.
  - rewrite (query_volume_run vol_radio). reflexivity.
  - rewrite (query_status_run kitchenlight). reflexivity.
Qed.

Lemma request_effects_witness :
  snd (handle sample_format GetRadioVolume initial_world) = initial_world.
Proof.
  destruct (request_effects sample_format GetRadioVolume initial_world) as [_ H].
  apply H. reflexivity.
Defined.

(** ** The wire over runs *)

(** What one event does to the wire and to the open sockets. *)
Lemma step_wire (format_float : Py.float -> string) (e : Event) (w : World) :
  let w' := step format_float w e in
  (sent w' = sent w
   \/ is_post e = true
      /\ exists (ws : WebSocket) (text : string),
           unity_ws w = Some ws /\ ws ∈ open_sockets w
           /\ sent w' = (sent w ++ [(ws, text)])%list)
  /\ (forall ws : WebSocket,
        ws ∈ open_sockets w' -> ws ∈ open_sockets w \/ e = Connect ws).
Proof.
  destruct e as [ws|ws data|ws|ws|r]; cbn [step].
  - destruct (bool_decide _); (split; [left; reflexivity|]); intros x Hx.
    + left. exact Hx.
    + cbn in Hx. apply elem_of_union in Hx as [Hx|Hx].
      * apply elem_of_singleton in Hx. right. congruence.
      * left. exact Hx.
  - destruct (bool_decide _); [|split; [left; reflexivity|intros x Hx; left; exact Hx]].
    rewrite websocket_receive_run. cbn [snd].
    destruct (length _ =? 3)%nat;
      (split; [left; reflexivity|intros x Hx; left; exact Hx]).
  - destruct (bool_decide _); (split; [left; reflexivity|]); intros x Hx.
    + cbn in Hx. apply elem_of_difference in Hx as [Hx _]. left. exact Hx.
    + left. exact Hx.
  - split; [left; reflexivity|]. intros x Hx. cbn in Hx.
    apply elem_of_difference in Hx as [Hx _]. left. exact Hx.
  - destruct (handle_outcome_cases format_float r w) as (_ & _ & Hopen & Hsent).
    split.
    + destruct Hsent as [Hs|Hs]; [left; exact Hs|right].
      split; [|exact Hs].
      destruct r; try reflexivity; exfalso; cbn [handle] in Hs;
        destruct Hs as (ws & text & _ & _ & Hs);
        rewrite ?(query_status_run lamp), ?(query_status_run tv),
          ?(query_status_run radio), ?(query_status_run kitchenlight),
          ?(query_volume_run vol_tv), ?(query_volume_run vol_radio) in Hs;
        cbn [snd] in Hs;
        apply (f_equal (@length _)) in Hs; rewrite length_app in Hs;
        cbn in Hs; lia.
    + intros x Hx. left. cbv zeta in Hopen. rewrite Hopen in Hx. exact Hx.
Qed.

(** X8. Along any run the wire only grows, by at most one frame per POST
    request: GET requests, inbound messages, connects and disconnects put
    nothing on it.  Every frame present after a run from the initial state
    is addressed to a socket that had connected. *)
Theorem wire_over_runs (format_float : Py.float -> string) (es : list Event)
  (w : World) :
  (exists frames : list (WebSocket * string),
      sent (run format_float es w) = (sent w ++ frames)%list
      /\ (length frames <= length (filter (fun e => is_post e = true) es))%nat)
  /\ (forall (ws : WebSocket) (text : string),
        (ws, text) ∈ sent (run format_float es w) ->
        (ws, text) ∈ sent w \/ ws ∈ open_sockets w \/ Connect ws ∈ es).
Proof.
  revert w. induction es as [|e es IH]; intros w.
  - split; [exists []; split; [symmetry; apply app_nil_r|cbn; lia]|].
    intros ws text Hin. left. exact Hin.
  - unfold run in *. cbn [foldl].
    destruct (step_wire format_float e w) as [Hsent Hopen].
    destruct (IH (step format_float w e)) as [(frames & Hfr & Hlen) Hto].
    split.
    + destruct Hsent as [Hs|(Hpost & ws & text & _ & _ & Hs)].
      * exists frames. rewrite Hfr, Hs. split; [reflexivity|].
        rewrite filter_cons. destruct (decide _); cbn; lia.
      * exists ((ws, text) :: frames). rewrite Hfr, Hs, <- app_assoc.
        split; [reflexivity|].
        rewrite filter_cons. destruct (decide _) as [_|Hn]; [cbn; lia|].
        destruct (Hn Hpost).
    + intros ws text Hin. apply Hto in Hin as [Hin|[Hin|Hin]].
      * destruct Hsent as [Hs|(_ & ws' & text' & _ & Hws' & Hs)].
        -- left. rewrite <- Hs. exact Hin.
        -- rewrite Hs in Hin. apply elem_of_app in Hin as [Hin|Hin];
             [left; exact Hin|].
           apply list_elem_of_singleton in Hin. injection Hin as -> ->.
           right. left. exact Hws'.
      * apply Hopen in Hin as [Hin| ->]; [right; left; exact Hin|].
        right. right. apply list_elem_of_here.
      * right. right. apply list_elem_of_further. exact Hin.
Qed.

Lemma wire_over_runs_witness :
  let es := [Connect 1%nat; Http (PostLamp {| state := "off" |});
             Http GetLampStatus] in
  (exists frames : list (WebSocket * string),
      sent (run sample_format es initial_world) = (sent initial_world ++ frames)%list
      /\ (length frames <= 1)%nat)
  /\ Connect 1%nat ∈ es.
Proof.
  intros es.
  destruct (wire_over_runs sample_format es initial_world) as [Hgrow Hto].
  split; [exact Hgrow|].
  assert (Hin : (1%nat, "lamp:status:off") ∈ sent (run sample_format es initial_world))
    by apply list_elem_of_here.
  destruct (Hto 1%nat "lamp:status:off" Hin) as [Hs|[Ho|Hc]].
  - cbn in Hs. apply elem_of_nil in Hs. destruct Hs.
  - cbn in Ho. apply not_elem_of_empty in Ho. destruct Ho.
  - exact Hc.
Defined.

(** ** The registered socket over runs *)





(** ** Toggles, repeated and echoed *)

(** X10. Toggling twice with the same request leaves the store exactly as
    toggling once does, on either backend and whatever the outcome of the
    calls. *)
Theorem toggle_twice_same_store (d : Device) (c : DeviceCommand) (w : World) :
  device_states (snd (toggle d c (snd (toggle d c w))))
  = device_states (snd (toggle d c w)).
Proof.
  assert (Hcases : snd (toggle d c w) = w
            \/ exists ws : WebSocket,
                 unity_ws w = Some ws /\ ws ∈ open_sockets w
                 /\ snd (toggle d c w)
                    = set_store (<[status_key d := Py.lower (state c)]> (device_states w))
                        (push_sent ws (status_message d c) w)).
  { rewrite toggle_run. unfold toggle_outcome.
    destruct (unity_ws w) as [ws|]; [|left; reflexivity]. cbv zeta.
    destruct (String.eqb _ _); [left; reflexivity|].
    destruct (bool_decide (ws ∈ open_sockets w)) eqn:Hopen; [|left; reflexivity].
    right. exists ws. apply bool_decide_eq_true in Hopen. unchanged. }
  destruct Hcases as [Hsame|(ws & Hws & Hopen & Hsent)].
  - rewrite Hsame. rewrite Hsame. reflexivity.
  - rewrite Hsent. rewrite toggle_run. unfold toggle_outcome.
    cbn [unity_ws open_sockets set_store push_sent]. rewrite Hws. cbv zeta.
    destruct (String.eqb _ _); [reflexivity|].
    rewrite (bool_decide_eq_true_2 _ Hopen). cbn. apply insert_insert_eq.
Qed.

(** ** Splitting on a colon *)

Lemma split_length (sep : ascii) (s : string) :
  length (Py.split sep s) = S (count_char sep s).
Proof.
  induction s as [|x r IH]; [reflexivity|].
  cbn [Py.split count_char]. destruct (Ascii.eqb x sep).
  - cbn [length]. rewrite IH. reflexivity.
  - destruct (Py.split sep r) as [|p ps]; [discriminate|exact IH].
Qed.

Lemma split_no_sep (sep : ascii) (s : string) :
  count_char sep s = O -> Py.split sep s = [s].
Proof.
  induction s as [|x r IH]; [reflexivity|].
  cbn [Py.split count_char]. destruct (Ascii.eqb x sep); [discriminate|].
  intros H. rewrite (IH H). reflexivity.
Qed.

Lemma append_cons (x : ascii) (r s : string) :
  String x r ++ s = String x (r ++ s).
Proof. reflexivity. Qed.

Lemma split_app_sep (sep : ascii) (a b : string) :
  count_char sep a = O ->
  Py.split sep (a ++ String sep b) = a :: Py.split sep b.
Proof.
  induction a as [|x r IH].
  - intros _. change ("" ++ String sep b) with (String sep b).
    cbn [Py.split]. rewrite Ascii.eqb_refl. reflexivity.
  - rewrite append_cons. cbn [Py.split count_char].
    destruct (Ascii.eqb x sep); [discriminate|].
    intros H. rewrite (IH H). reflexivity.
Qed.

(** X11. An inbound text is applied exactly when it contains two colons:
    with any other number of colons the whole state is left as it is, and
    with two the store gets the lower-cased text after the second colon
    under the key made of the lower-cased texts before it. *)
Theorem websocket_receive_two_colons (data : string) (w : World) :
  (count_char ":" data <> 2%nat -> snd (websocket_receive data w) = w)
  /\ (count_char ":" data = 2%nat ->
      exists p0 p1 p2 : string,
        data = p0 ++ ":" ++ p1 ++ ":" ++ p2
        /\ count_char ":" p0 = O /\ count_char ":" p1 = O /\ count_char ":" p2 = O
        /\ snd (websocket_receive data w)
           = set_store (<[Py.lower p0 ++ "_" ++ Py.lower p1 := Py.lower p2]>
                          (device_states w)) w).
Proof.
  rewrite websocket_receive_run. cbn [snd].
  pose proof (split_length ":" data) as Hlen.
  split.
  - intros Hne. destruct (Nat.eqb_spec (length (Py.split ":" data)) 3); [lia|reflexivity].
  - intros Htwo. rewrite Hlen, Htwo. cbn [Nat.eqb].
    clear Hlen. revert Htwo.
    assert (Hsplit : forall s n, count_char ":" s = S n ->
              exists a b, s = a ++ ":" ++ b /\ count_char ":" a = O
                          /\ count_char ":" b = n).
    { induction s as [|x r IH]; [discriminate|]. intros n.
      cbn [count_char]. destruct (Ascii.eqb_spec x ":") as [->|Hx].
      - intros [= Hn]. exists "", r. repeat split. exact Hn.
      - intros Hn. destruct (IH n Hn) as (a & b & -> & Ha & Hb).
        exists (String x a), b. repeat split; [|exact Hb].
        cbn [count_char]. apply Ascii.eqb_neq in Hx. rewrite Hx. exact Ha. }
    intros Htwo.
    destruct (Hsplit data 1%nat Htwo) as (p0 & rest & -> & H0 & Hrest).
    destruct (Hsplit rest O Hrest) as (p1 & p2 & -> & H1 & H2).
    exists p0, p1, p2. repeat split; try assumption.
    change (p0 ++ ":" ++ p1 ++ ":" ++ p2)
      with (p0 ++ String ":" (p1 ++ String ":" p2)).
    rewrite (split_app_sep ":" p0 _ H0), (split_app_sep ":" p1 _ H1),
      (split_no_sep ":" p2 H2).
    reflexivity.
Qed.

Lemma websocket_receive_two_colons_witness :
  snd (websocket_receive "hello" initial_world) = initial_world
  /\ exists p0 p1 p2 : string,
       "Radio:STATUS:On" = p0 ++ ":" ++ p1 ++ ":" ++ p2
       /\ count_char ":" p0 = O /\ count_char ":" p1 = O /\ count_char ":" p2 = O
       /\ snd (websocket_receive "Radio:STATUS:On" initial_world)
          = set_store (<[Py.lower p0 ++ "_" ++ Py.lower p1 := Py.lower p2]>
                         (device_states initial_world)) initial_world.
Proof.
  split.
  - apply (websocket_receive_two_colons "hello" initial_world). discriminate.
  - apply (websocket_receive_two_colons "Radio:STATUS:On" initial_world).
    reflexivity.
Defined.

Lemma count_char_app (sep : ascii) (a b : string) :
  count_char sep (a ++ b) = (count_char sep a + count_char sep b)%nat.
Proof.
  induction a as [|x r IH]; [reflexivity|].
  rewrite append_cons. cbn [count_char].
  destruct (Ascii.eqb x sep); rewrite IH; reflexivity.
Qed.

Lemma device_name_no_colon (d : Device) : count_char ":" (device_name d) = O.
Proof. destruct d; reflexivity. Qed.

Lemma status_message_colons (d : Device) (c : DeviceCommand) :
  count_char ":" (status_message d c) = S (S (count_char ":" (state c))).
Proof.
  change (status_message d c) with (device_name d ++ (":status:" ++ state c)).
  rewrite !count_char_app, device_name_no_colon. reflexivity.
Qed.

Lemma status_message_split (d : Device) (c : DeviceCommand) :
  count_char ":" (state c) = O ->
  Py.split ":" (status_message d c) = [device_name d; "status"; state c].
Proof.
  intros H0.
  change (status_message d c)
    with (device_name d ++ String ":" ("status" ++ String ":" (state c))).
  rewrite (split_app_sep ":" _ _ (device_name_no_colon d)).
  rewrite (split_app_sep ":" "status" _ eq_refl).
  rewrite (split_no_sep ":" _ H0). reflexivity.
Qed.

Lemma status_key_of_parts (d : Device) :
  Py.lower (device_name d) ++ "_" ++ Py.lower "status" = status_key d.
Proof. destruct d; reflexivity. Qed.

(** X12. If the controller echoes back the status frame a toggle has just
    sent, the echo changes nothing: with a colon-free state it rewrites the
    entry the toggle wrote with the same value, and with a colon in the
    state it is dropped as malformed. *)
Theorem echoed_status_frame (d : Device) (c : DeviceCommand) (w : World)
  (ws : WebSocket) :
  unity_ws w = Some ws ->
  ws ∈ open_sockets w ->
  stored w (status_key d) <> Py.lower (state c) ->
  let w1 := snd (toggle d c w) in
  sent w1 = (sent w ++ [(ws, status_message d c)])%list
  /\ websocket_receive (status_message d c) w1 = (inr tt, w1).
Proof.
  intros Hws Hopen Hne w1.
  assert (Hw1 : w1 = set_store (<[status_key d := Py.lower (state c)]> (device_states w))
                       (push_sent ws (status_message d c) w)).
  { unfold w1. rewrite toggle_run. unfold toggle_outcome. rewrite Hws. cbv zeta.
    apply String.eqb_neq in Hne. rewrite Hne, (bool_decide_eq_true_2 _ Hopen).
    reflexivity. }
  split; [rewrite Hw1; reflexivity|].
  rewrite websocket_receive_run. f_equal.
  rewrite split_length, status_message_colons.
  destruct (count_char ":" (state c)) as [|n] eqn:Hcount; [|reflexivity].
  cbn [Nat.eqb]. rewrite (status_message_split d c Hcount). cbn [nth].
  rewrite status_key_of_parts, Hw1. unfold set_store, push_sent. cbn.
  rewrite insert_insert_eq. reflexivity.
Qed.

Lemma echoed_status_frame_witness :
  let w := connected_world 1%nat initial_device_states in
  let c := {| state := "Off" |} in
  sent (snd (toggle lamp c w)) = (sent w ++ [(1%nat, status_message lamp c)])%list
  /\ websocket_receive (status_message lamp c) (snd (toggle lamp c w))
     = (inr tt, snd (toggle lamp c w)).
Proof.
  intros w c. apply (echoed_status_frame lamp c w 1%nat).
  - reflexivity.
  - apply connected_world_open.
  - vm_compute. discriminate.
Defined.

(** Reading back a written value: the empty string survives only on the
    in-memory backend. *)
Lemma stored_insert_backend (w : World) (m : gmap string string) (key v : string) :
  USE_REDIS w = false \/ v <> "" ->
  stored (set_store (<[key := v]> m) w) key = v.
Proof.
  intros H. unfold stored, set_store; cbn. rewrite lookup_insert_eq.
  destruct (USE_REDIS w); cbn; [|reflexivity].
  destruct H as [H|H]; [discriminate|]. destruct v; [contradiction|reflexivity].
Qed.

(** X13. A status report from the controller takes effect whatever its
    casing: after a three-part message whose first two parts lower-case to
    a device name and "status", the status query of that device answers
    whether the lower-cased third part is "on", and a toggle asking for
    that state (in any casing) finds the device already in it and sends
    nothing.  (On the Redis backend the third part must not be empty.) *)
Theorem inbound_status_report (d : Device) (data p0 p1 p2 : string) (w : World) :
  Py.split ":" data = [p0; p1; p2] ->
  Py.lower p0 = device_name d ->
  Py.lower p1 = "status" ->
  USE_REDIS w = false \/ p2 <> "" ->
  let w' := snd (websocket_receive data w) in
  fst (queryStatus d w')
    = inr [(device_name d, JBool (String.eqb (Py.lower p2) "on"))]
  /\ (forall (c : DeviceCommand) (ws : WebSocket),
        unity_ws w = Some ws ->
        Py.lower (state c) = Py.lower p2 ->
        toggle d c w' = (inr (already_in_state d (Py.lower (state c))), w')).
Proof.
  intros Hsplit H0 H1 Hback w'.
  assert (Hw' : w' = set_store (<[status_key d := Py.lower p2]> (device_states w)) w).
  { unfold w'. rewrite websocket_receive_run, Hsplit. cbn [length Nat.eqb nth snd].
    rewrite H0, H1. destruct d; reflexivity. }
  assert (Hst : stored w' (status_key d) = Py.lower p2).
  { rewrite Hw'. apply stored_insert_backend.
    destruct Hback as [Hb|Hb]; [left; exact Hb|right; apply lower_nonempty, Hb]. }
  split.
  - rewrite query_status_run. cbn [fst]. rewrite Hst. reflexivity.
  - intros c ws Hws Hc. apply (toggle_in_state d c w' ws).
    + rewrite Hw'. exact Hws.
    + rewrite Hst. symmetry. exact Hc.
Qed.

Lemma inbound_status_report_witness :
  let w := connected_world 1%nat initial_device_states in
  let w' := snd (websocket_receive "LAMP:Status:OFF" w) in
  fst (queryStatus lamp w') = inr [("lamp", JBool false)]
  /\ toggle lamp {| state := "Off" |} w'
     = (inr (already_in_state lamp "off"), w').
Proof.
  intros w w'.
  destruct (inbound_status_report lamp "LAMP:Status:OFF" "LAMP" "Status" "OFF" w
              eq_refl eq_refl eq_refl (or_introl eq_refl)) as [Hq Ht].
  split; [exact Hq|].
  apply (Ht {| state := "Off" |} 1%nat); reflexivity.
Defined.

(** ** Volumes over runs *)

Lemma volume_text_nonempty (v : string) : volume_text v = true -> v <> "".
Proof. intros H E. rewrite E in H. discriminate. Qed.

Lemma volume_text_clamp (n : Z) : volume_text (Py.str_of_int (clamp n)) = true.
Proof.
  unfold volume_text.
  destruct (str_of_int_parses (clamp n) (clamp_range n)) as [-> _].
  pose proof (clamp_range n). apply andb_true_iff. split; apply Z.leb_le; lia.
Qed.

Lemma volumes_ok_same_store (w w' : World) :
  USE_REDIS w' = USE_REDIS w -> device_states w' = device_states w ->
  volumes_ok w -> volumes_ok w'.
Proof.
  intros Hb Hs Hok k Hk. unfold stored. rewrite Hb, Hs. apply (Hok k Hk).
Qed.

Lemma volumes_ok_write (w w' : World) (key v : string) :
  USE_REDIS w' = USE_REDIS w ->
  device_states w' = <[key := v]> (device_states w) ->
  (key ∈ volume_keys -> volume_text v = true) ->
  volumes_ok w -> volumes_ok w'.
Proof.
  intros Hb Hs Hv Hok k Hk. unfold stored. rewrite Hb, Hs.
  destruct (decide (key = k)) as [->|Hne].
  - rewrite lookup_insert_eq. specialize (Hv Hk).
    pose proof (volume_text_nonempty v Hv) as Hnon.
    destruct (USE_REDIS w); cbn; [|exact Hv].
    destruct v; [contradiction|exact Hv].
  - rewrite lookup_insert_ne by exact Hne. apply (Hok k Hk).
Qed.

Lemma status_key_not_volume (d : Device) : status_key d ∉ volume_keys.
Proof.
  intros Hin. apply list_elem_of_In in Hin.
  destruct d; cbn in Hin; intuition discriminate.
Qed.

Lemma volumes_ok_toggle (d : Device) (c : DeviceCommand) (w : World) :
  volumes_ok w -> volumes_ok (snd (toggle d c w)).
Proof.
  intros Hok. rewrite toggle_run. unfold toggle_outcome.
  destruct (unity_ws w) as [ws|]; [|exact Hok]. cbv zeta.
  destruct (String.eqb _ _); [exact Hok|].
  destruct (bool_decide _); [|exact Hok]. cbn [snd].
  apply (volumes_ok_write w _ (status_key d) (Py.lower (state c)));
    [reflexivity|reflexivity| |exact Hok].
  intros Hin. destruct (status_key_not_volume d Hin).
Qed.

Lemma volumes_ok_adjust (format_float : Py.float -> string) (d : VolumeDevice)
  (c : VolumeCommand) (w : World) :
  volumes_ok w -> volumes_ok (snd (adjustVolume format_float d c w)).
Proof.
  intros Hok. rewrite adjust_run. unfold adjust_outcome.
  destruct (unity_ws w) as [ws|]; [|exact Hok]. cbv zeta.
  destruct (bool_decide _); [|exact Hok].
  destruct (Py.int_of_float (change c)) as [e|delta]; cbn [snd].
  - apply (volumes_ok_same_store w); [reflexivity|reflexivity|exact Hok].
  - eapply (volumes_ok_write w); [reflexivity|reflexivity| |exact Hok].
    intros _. apply volume_text_clamp.
Qed.

Lemma volumes_ok_step (format_float : Py.float -> string) (e : Event) (w : World) :
  volume_event_ok e = true -> volumes_ok w -> volumes_ok (step format_float w e).
Proof.
  intros He Hok. destruct e as [ws|ws data|ws|ws|r]; cbn [step].
  - destruct (bool_decide _); [exact Hok|].
    apply (volumes_ok_same_store w); [reflexivity|reflexivity|exact Hok].
  - destruct (bool_decide _); [|exact Hok].
    rewrite websocket_receive_run. cbn [snd].
    cbn [volume_event_ok] in He. unfold volume_text_ok in He. cbv zeta in He.
    destruct (length (Py.split ":" data) =? 3)%nat; [|exact Hok].
    eapply (volumes_ok_write w); [reflexivity|reflexivity| |exact Hok].
    intros Hin. rewrite (bool_decide_eq_true_2 _ Hin) in He. exact He.
  - destruct (bool_decide _); [|exact Hok].
    apply (volumes_ok_same_store w); [reflexivity|reflexivity|exact Hok].
  - apply (volumes_ok_same_store w); [reflexivity|reflexivity|exact Hok].
  - destruct r; cbn [handle].
    + apply (volumes_ok_toggle lamp), Hok.
    + rewrite (query_status_run lamp). exact Hok.
    + apply (volumes_ok_toggle tv), Hok.
    + rewrite (query_status_run tv). exact Hok.
    + apply (volumes_ok_adjust format_float vol_tv), Hok.
    + rewrite (query_volume_run vol_tv). exact Hok.
    + apply (volumes_ok_toggle radio), Hok.
    + rewrite (query_status_run radio). exact Hok.
    + apply (volumes_ok_adjust format_float vol_radio), Hok.
    + rewrite (query_volume_run vol_radio). exact Hok.
    + apply (volumes_ok_toggle kitchenlight), Hok.
    + rewrite (query_status_run kitchenlight). exact Hok.
Qed.

Lemma volumes_ok_initial : volumes_ok initial_world.
Proof.
  intros k Hk. apply list_elem_of_In in Hk. cbn in Hk.
  destruct Hk as [<-|[<-|[]]]; reflexivity.
Qed.

Lemma volume_key_in_keys (d : VolumeDevice) : volume_key d ∈ volume_keys.
Proof. apply list_elem_of_In. destruct d; cbn; auto. Qed.

(** X14. Through any sequence of toggles, volume changes (of any delta),
    queries, connects and disconnects, and of inbound messages that carry
    a volume in range whenever they address a volume key, both stored
    volumes stay in [0,100]; so every volume query after such a run from
    the initial state answers a number in [0,100]. *)
Theorem volumes_in_range_over_runs (format_float : Py.float -> string)
  (es : list Event) (w : World) :
  volumes_ok w ->
  Forall (fun e => volume_event_ok e = true) es ->
  volumes_ok (run format_float es w)
  /\ (forall d : VolumeDevice,
        exists n : Z,
          fst (queryVolume d (run format_float es w)) = inr [(volume_key d, JInt n)]
          /\ 0 <= n <= 100).
Proof.
  intros Hok Hes.
  assert (Hrun : volumes_ok (run format_float es w)).
  { revert w Hok. induction Hes as [|e es He _ IH]; intros w Hok; [exact Hok|].
    unfold run. cbn [foldl]. apply IH, volumes_ok_step; assumption. }
  split; [exact Hrun|]. intros d.
  pose proof (Hrun (volume_key d) (volume_key_in_keys d)) as Hv.
  unfold volume_text in Hv.
  destruct (Py.int_of_str (stored (run format_float es w) (volume_key d)))
    as [n|] eqn:Hn; [|discriminate].
  exists n. rewrite query_volume_run. cbn [fst]. unfold int_or. rewrite Hn.
  apply andb_true_iff in Hv as [H0 H100].
  apply Z.leb_le in H0. apply Z.leb_le in H100. split; [reflexivity|lia].
Qed.

Lemma volumes_in_range_over_runs_witness :
  let es := [Connect 1%nat; Http (PostTvVolume {| change := Py.Finite 50 |});
             Text 1%nat "Radio:Volume:100"; Text 1%nat "lamp:status:dim";
             Http (PostRadioVolume {| change := Py.Inf true |})] in
  volumes_ok (run sample_format es initial_world)
  /\ (forall d : VolumeDevice,
        exists n : Z,
          fst (queryVolume d (run sample_format es initial_world))
          = inr [(volume_key d, JInt n)]
          /\ 0 <= n <= 100).
Proof.
  apply (volumes_in_range_over_runs sample_format).
  - exact volumes_ok_initial.
  - repeat constructor.
Defined.

(** An inbound volume outside the range is stored and reported as it is. *)
Example inbound_volume_not_clamped :
  let w := snd (websocket_receive "tv:volume:250" initial_world) in
  fst (queryVolume vol_tv w) = inr [("tv_volume", JInt 250)].
Proof. reflexivity. Qed.

(** ** The first lamp endpoint *)

Lemma lamp_toggle_run (c : Lamp.LampCommand) (w : World) :
  Lamp.toggle_lamp c w
  = match unity_ws w with
    | None => (inr not_connected, w)
    | Some ws =>
        if bool_decide (ws ∈ open_sockets w)
        then (inr (command_sent ("lamp:" ++ Lamp.state c)),
              push_sent ws ("lamp:" ++ Lamp.state c) w)
        else (inl Py.ConnectionClosed, w)
    end.
Proof.
  unfold Lamp.toggle_lamp, mbind, M_bind, gets, send_text.
  destruct (unity_ws w) as [ws|]; [|reflexivity].
  destruct (bool_decide _); reflexivity.
Qed.

(** X15. The first lamp endpoint keeps no state of the lamp: with the
    registered socket open every call sends its frame "lamp:{state}", so
    [n] identical calls put [n] identical frames on the wire, and it never
    writes the store or the connection variable. *)
Theorem lamp_toggle_sends_every_time (n : nat) (c : Lamp.LampCommand)
  (w : World) (ws : WebSocket) :
  unity_ws w = Some ws ->
  ws ∈ open_sockets w ->
  sent (Lamp.toggle_many n c w)
    = (sent w ++ replicate n (ws, ("lamp:" ++ Lamp.state c)%string))%list
  /\ device_states (Lamp.toggle_many n c w) = device_states w
  /\ unity_ws (Lamp.toggle_many n c w) = Some ws.
Proof.
  revert w. induction n as [|n IH]; intros w Hws Hopen.
  - cbn. rewrite app_nil_r. repeat split. exact Hws.
  - cbn [Lamp.toggle_many]. rewrite lamp_toggle_run, Hws.
    rewrite (bool_decide_eq_true_2 _ Hopen). cbn [snd].
    destruct (IH (push_sent ws ("lamp:" ++ Lamp.state c) w) Hws Hopen)
      as (Hs & Hd & Hu).
    rewrite Hs, Hd, Hu. cbn [sent push_sent device_states replicate].
    rewrite <- app_assoc. repeat split.
Qed.

Lemma lamp_toggle_sends_every_time_witness :
  let w := connected_world 1%nat initial_device_states in
  sent (Lamp.toggle_many 3 {| Lamp.state := "on" |} w)
    = [(1%nat, "lamp:on"); (1%nat, "lamp:on"); (1%nat, "lamp:on")]
  /\ device_states (Lamp.toggle_many 3 {| Lamp.state := "on" |} w) = device_states w
  /\ unity_ws (Lamp.toggle_many 3 {| Lamp.state := "on" |} w) = Some 1%nat.
Proof.
  intros w.
  apply (lamp_toggle_sends_every_time 3 {| Lamp.state := "on" |} w 1%nat).
  - reflexivity.
  - apply connected_world_open.
Defined.

(** ** The backend flag *)

(** X16. The backend flag is read without regard to case and without
    trimming: two values of the variable that agree up to case select the
    same backend, an unset variable selects the in-memory backend, and
    Redis is selected exactly by the words "true", "1" and "yes" in any
    casing. *)
Theorem use_redis_case_insensitive (s t : string) :
  (Py.lower s = Py.lower t ->
   use_redis_of_env (Some s) = use_redis_of_env (Some t))
  /\ use_redis_of_env (Some (Py.lower s)) = use_redis_of_env (Some s)
  /\ use_redis_of_env None = false
  /\ (use_redis_of_env (Some s) = true <->
      Py.lower s = "true" \/ Py.lower s = "1" \/ Py.lower s = "yes").
Proof.
  unfold use_redis_of_env.
  assert (Hd : forall x : string, default "false" (Some x) = x) by reflexivity.
  rewrite !Hd, lower_idem.
  split; [intros Heq; rewrite Heq; reflexivity|].
  split; [reflexivity|]. split; [reflexivity|].
  rewrite bool_decide_eq_true. rewrite !elem_of_cons, elem_of_nil. tauto.
Qed.

Lemma use_redis_case_insensitive_witness :
  use_redis_of_env (Some "YES") = use_redis_of_env (Some "yes")
  /\ use_redis_of_env (Some "True") = true
  /\ use_redis_of_env (Some " true") = false.
Proof.
  destruct (use_redis_case_insensitive "YES" "yes") as (H1 & _).
  destruct (use_redis_case_insensitive "True" "") as (_ & _ & _ & H2).
  split; [apply H1; reflexivity|].
  split; [apply H2; left; reflexivity|reflexivity].
Defined.

(** ** Routing *)

(** X17. Once a new controller has connected, whatever a request sends goes
    to that controller: a frame put on the wire by the next request is
    addressed to the socket that connected last, not to an earlier one that
    is still open. *)
Theorem frames_go_to_latest (format_float : Py.float -> string) (w : World)
  (ws : WebSocket) (r : Request) :
  ws ∉ open_sockets w ->
  let w1 := step format_float w (Connect ws) in
  unity_ws w1 = Some ws
  /\ (forall (ws' : WebSocket) (text : string),
        sent (snd (handle format_float r w1)) = (sent w1 ++ [(ws', text)])%list ->
        ws' = ws).
Proof.
  intros Hnew w1. unfold w1. rewrite (step_connect _ w ws Hnew).
  split; [reflexivity|]. intros ws' text Hsent.
  destruct (handle_outcome_cases format_float r
              (set_unity_ws (Some ws) (set_open ({[ws]} ∪ open_sockets w) w)))
    as (_ & _ & _ & [Hs|(x & t & Hx & _ & Hs)]).
  - cbv zeta in Hs. rewrite Hs in Hsent.
    apply (f_equal (@length _)) in Hsent. rewrite length_app in Hsent.
    cbn in Hsent. lia.
  - cbv zeta in Hs. rewrite Hs in Hsent. apply app_inv_head in Hsent.
    injection Hsent as <- _. cbn in Hx. congruence.
Qed.

Lemma frames_go_to_latest_witness :
  let w1 := step sample_format (connected_world 1%nat initial_device_states)
              (Connect 2%nat) in
  unity_ws w1 = Some 2%nat
  /\ (forall (ws' : WebSocket) (text : string),
        sent (snd (handle sample_format (PostLamp {| state := "off" |}) w1))
        = (sent w1 ++ [(ws', text)])%list ->
        ws' = 2%nat).
Proof.
  apply (frames_go_to_latest sample_format
           (connected_world 1%nat initial_device_states) 2%nat
           (PostLamp {| state := "off" |})).
  unfold connected_world, WebSocket; cbn [open_sockets].
  intros Hin. apply elem_of_singleton in Hin. discriminate.
Defined.
